(** * bekantfirmware: button debouncing and gesture recognition (btn/btn.c)

    A shallow embedding of [btn.h] and [btn.c].  The three function-local
    [static] records of the C file (the debouncer, the gesture state and the
    last reported gesture) are threaded explicitly through the functions that
    own them.  [uint8_t] counters are integers with their wrap-around at 256
    written out. *)

From Stdlib Require Import ZArith List Bool Lia.
Import ListNotations.
Local Open Scope Z_scope.

(** ** btn.h *)

Inductive INPUT_t : Type :=
  | INPUT_IDLE
  | INPUT_UP
  | INPUT_DOWN
  | INPUT_DOUBLE_UP
  | INPUT_DOUBLE_DOWN
  | INPUT_SAVE.

Definition INPUT_eqb (a b : INPUT_t) : bool :=
  match a, b with
  | INPUT_IDLE, INPUT_IDLE
  | INPUT_UP, INPUT_UP
  | INPUT_DOWN, INPUT_DOWN
  | INPUT_DOUBLE_UP, INPUT_DOUBLE_UP
  | INPUT_DOUBLE_DOWN, INPUT_DOUBLE_DOWN
  | INPUT_SAVE, INPUT_SAVE => true
  | _, _ => false
  end.

(** ** btn.c: the two button lines *)

(** [ButtonState_t] overlays PORTB; the code only ever reads the two
    one-bit fields [DOWN] (bit 0) and [UP] (bit 1).  A field holds the level
    of its line: [true] is a high line. *)
Record ButtonState_t : Type := mkButtonState { DOWN : bool; UP : bool }.

(** The cast [(ButtonState_t)PORTBbits] of [btn_timer]. *)
Definition ButtonState_of_PORTB (portb : Z) : ButtonState_t :=
  {| DOWN := Z.testbit portb 0; UP := Z.testbit portb 1 |}.

(** The lines are active-low. *)
Definition PRESSED (b : bool) : bool := negb b.
Definition RELEASED (b : bool) : bool := b.

Definition BUTTON_CHANGE (a b : ButtonState_t) : bool :=
  negb (Bool.eqb (UP a) (UP b)) || negb (Bool.eqb (DOWN a) (DOWN b)).

(** The four samples, named by which button is pressed. *)
Definition UpOnly : ButtonState_t := {| DOWN := true; UP := false |}.
Definition DownOnly : ButtonState_t := {| DOWN := false; UP := true |}.
Definition Both : ButtonState_t := {| DOWN := false; UP := false |}.
Definition Neither : ButtonState_t := {| DOWN := true; UP := true |}.

(** Conversion of an [int] result back to [uint8_t]. *)
Definition uint8 (x : Z) : Z := x mod 256.

(** ** btn.c: debouncing *)

Record Debounce_t : Type := mkDebounce {
  count : Z;
  last_state : ButtonState_t
}.

Definition DEBOUNCE_THRESHOLD : Z := 200.

(** The initializer of the static [debouncer]: [.last_state = 0] is both
    lines low. *)
Definition debouncer_init : Debounce_t :=
  {| count := 0; last_state := {| DOWN := false; UP := false |} |}.

Definition btn_debounce (now_btn : ButtonState_t) (debouncer : Debounce_t)
  : bool * Debounce_t :=
  let debouncer :=
    if BUTTON_CHANGE (last_state debouncer) now_btn
    then {| count := 0; last_state := now_btn |}
    else {| count := uint8 (count debouncer + 1);
            last_state := last_state debouncer |} in
  if DEBOUNCE_THRESHOLD <=? count debouncer
  then (true, {| count := 0; last_state := last_state debouncer |})
  else (false, debouncer).

(** One call per sample, in order; the results of the calls and the
    debouncer left behind. *)
Fixpoint debounce_run (samples : list ButtonState_t) (debouncer : Debounce_t)
  : list bool * Debounce_t :=
  match samples with
  | [] => ([], debouncer)
  | b :: rest =>
      let '(r, debouncer) := btn_debounce b debouncer in
      let '(rs, debouncer) := debounce_run rest debouncer in
      (r :: rs, debouncer)
  end.

(** ** btn.c: gesture recognition *)

Record InputState_t : Type := mkInputState {
  save_hold : Z;
  double_click_timer : Z;
  waiting_for_second_up : bool;
  waiting_for_second_down : bool;
  state : INPUT_t
}.

Definition SAVE_HOLD_THRESHOLD : Z := 60.
Definition DOUBLE_CLICK_WINDOW : Z := 10.

Definition input_init : InputState_t :=
  {| save_hold := 0;
     double_click_timer := 0;
     waiting_for_second_up := false;
     waiting_for_second_down := false;
     state := INPUT_IDLE |}.

(** Assignments to one member of the static [input]. *)
Definition set_save_hold (v : Z) (i : InputState_t) : InputState_t :=
  mkInputState v (double_click_timer i) (waiting_for_second_up i)
    (waiting_for_second_down i) (state i).
Definition set_double_click_timer (v : Z) (i : InputState_t) : InputState_t :=
  mkInputState (save_hold i) v (waiting_for_second_up i)
    (waiting_for_second_down i) (state i).
Definition set_waiting_for_second_up (v : bool) (i : InputState_t)
  : InputState_t :=
  mkInputState (save_hold i) (double_click_timer i) v
    (waiting_for_second_down i) (state i).
Definition set_waiting_for_second_down (v : bool) (i : InputState_t)
  : InputState_t :=
  mkInputState (save_hold i) (double_click_timer i) (waiting_for_second_up i)
    v (state i).
Definition set_state (v : INPUT_t) (i : InputState_t) : InputState_t :=
  mkInputState (save_hold i) (double_click_timer i) (waiting_for_second_up i)
    (waiting_for_second_down i) v.

(** The first block of [btn_gesture]: the double-click timer counts down and
    takes both waiting flags with it when it expires. *)
Definition tick_double_click_timer (input : InputState_t) : InputState_t :=
  if 0 <? double_click_timer input then
    let input :=
      set_double_click_timer (uint8 (double_click_timer input - 1)) input in
    if double_click_timer input =? 0 then
      set_waiting_for_second_down false
        (set_waiting_for_second_up false input)
    else input
  else input.

(** The [switch] of [btn_gesture]. *)
Definition gesture_switch (btn : ButtonState_t) (input : InputState_t)
  : InputState_t :=
  match state input with
  | INPUT_IDLE =>
      if PRESSED (UP btn) && RELEASED (DOWN btn) then
        if waiting_for_second_up input then
          set_state INPUT_DOUBLE_UP
            (set_double_click_timer 0
               (set_waiting_for_second_up false input))
        else set_state INPUT_UP input
      else if RELEASED (UP btn) && PRESSED (DOWN btn) then
        if waiting_for_second_down input then
          set_state INPUT_DOUBLE_DOWN
            (set_double_click_timer 0
               (set_waiting_for_second_down false input))
        else set_state INPUT_DOWN input
      else if PRESSED (UP btn) && PRESSED (DOWN btn) then
        let input := set_save_hold (uint8 (save_hold input + 1)) input in
        if SAVE_HOLD_THRESHOLD <=? save_hold input then
          set_state INPUT_SAVE (set_save_hold 0 input)
        else set_state INPUT_IDLE input
      else set_state INPUT_IDLE input
  | INPUT_SAVE =>
      if PRESSED (UP btn) && PRESSED (DOWN btn) then set_state INPUT_SAVE input
      else set_state INPUT_IDLE input
  | INPUT_UP =>
      if PRESSED (UP btn) && RELEASED (DOWN btn) then set_state INPUT_UP input
      else if RELEASED (UP btn) && PRESSED (DOWN btn) then
        set_state INPUT_DOWN input
      else if RELEASED (UP btn) && RELEASED (DOWN btn) then
        set_state INPUT_IDLE
          (set_double_click_timer DOUBLE_CLICK_WINDOW
             (set_waiting_for_second_up true input))
      else if PRESSED (UP btn) && PRESSED (DOWN btn) then
        set_state INPUT_IDLE input
      else input
  | INPUT_DOWN =>
      if PRESSED (UP btn) && RELEASED (DOWN btn) then set_state INPUT_UP input
      else if RELEASED (UP btn) && PRESSED (DOWN btn) then
        set_state INPUT_DOWN input
      else if RELEASED (UP btn) && RELEASED (DOWN btn) then
        set_state INPUT_IDLE
          (set_double_click_timer DOUBLE_CLICK_WINDOW
             (set_waiting_for_second_down true input))
      else if PRESSED (UP btn) && PRESSED (DOWN btn) then
        set_state INPUT_IDLE input
      else input
  | INPUT_DOUBLE_UP =>
      if RELEASED (UP btn) && RELEASED (DOWN btn) then
        set_state INPUT_IDLE input
      else set_state INPUT_DOUBLE_UP input
  | INPUT_DOUBLE_DOWN =>
      if RELEASED (UP btn) && RELEASED (DOWN btn) then
        set_state INPUT_IDLE input
      else set_state INPUT_DOUBLE_DOWN input
  end.

Definition btn_gesture (btn : ButtonState_t) (input : InputState_t)
  : INPUT_t * InputState_t :=
  let input := tick_double_click_timer input in
  let input := gesture_switch btn input in
  (state input, input).

(** One call per debounced sample, in order. *)
Fixpoint gesture_run (btns : list ButtonState_t) (input : InputState_t)
  : list INPUT_t * InputState_t :=
  match btns with
  | [] => ([], input)
  | b :: rest =>
      let '(g, input) := btn_gesture b input in
      let '(gs, input) := gesture_run rest input in
      (g :: gs, input)
  end.

(** The values the calls return, and the state they leave. *)
Definition gesture_outputs (btns : list ButtonState_t) (i : InputState_t)
  : list INPUT_t := fst (gesture_run btns i).
Definition gesture_final (btns : list ButtonState_t) (i : InputState_t)
  : InputState_t := snd (gesture_run btns i).

(** The gestures that do not start a click and do not use up the flag for
    the second down press. *)
Definition no_click (g : INPUT_t) : bool :=
  match g with
  | INPUT_UP | INPUT_DOWN | INPUT_DOUBLE_DOWN => false
  | _ => true
  end.

(** The timer is stopped, the second down press is still awaited, and no
    single click is under way. *)
Definition stale_down (i : InputState_t) : Prop :=
  double_click_timer i = 0 /\
  waiting_for_second_down i = true /\
  state i <> INPUT_UP /\ state i <> INPUT_DOWN.

(** ** btn.c: the timer interrupt *)

(** What a call of [btn_timer] leaves behind: it returns, or it has called
    through the null function pointer. *)
Inductive outcome (A : Type) : Type :=
  | Done (a : A)
  | Fault.
Arguments Done {A} a.
Arguments Fault {A}.

Section Timer.

(** The consumer of the gestures, and the state it keeps. *)
Variable W : Type.

(** The statics of [btn_debounce], [btn_gesture] and [btn_timer], and the
    consumer's state. *)
Record Timer_t : Type := mkTimer {
  debouncer : Debounce_t;
  input : InputState_t;
  last_input : INPUT_t;
  world : W
}.

Definition timer_init (w : W) : Timer_t :=
  {| debouncer := debouncer_init;
     input := input_init;
     last_input := INPUT_IDLE;
     world := w |}.

(** [btn_report_gesture] is a global function pointer without an
    initializer: it is null ([None]) until the consumer assigns it. *)
Variable btn_report_gesture : option (INPUT_t -> W -> W).

Definition btn_timer (PORTBbits : Z) (t : Timer_t) : outcome Timer_t :=
  let button_state := ButtonState_of_PORTB PORTBbits in
  let '(confirmed, debouncer) := btn_debounce button_state (debouncer t) in
  if confirmed then
    let '(input, input_state) := btn_gesture button_state (input t) in
    if negb (INPUT_eqb input (last_input t)) then
      match btn_report_gesture with
      | Some report =>
          Done {| debouncer := debouncer;
                  input := input_state;
                  last_input := input;
                  world := report input (world t) |}
      | None => Fault
      end
    else
      Done {| debouncer := debouncer;
              input := input_state;
              last_input := last_input t;
              world := world t |}
  else
    Done {| debouncer := debouncer;
            input := input t;
            last_input := last_input t;
            world := world t |}.

(** One interrupt per reading of PORTB, in order. *)
Fixpoint timer_run (ports : list Z) (t : Timer_t) : outcome Timer_t :=
  match ports with
  | [] => Done t
  | p :: rest =>
      match btn_timer p t with
      | Done t => timer_run rest t
      | Fault => Fault
      end
  end.

(** The gesture of a tick, when the debouncer confirms the sample. *)
Definition tick_gesture (PORTBbits : Z) (t : Timer_t) : option INPUT_t :=
  let button_state := ButtonState_of_PORTB PORTBbits in
  if fst (btn_debounce button_state (debouncer t))
  then Some (fst (btn_gesture button_state (input t)))
  else None.

End Timer.

Arguments debouncer {W} _.
Arguments input {W} _.
Arguments last_input {W} _.
Arguments world {W} _.
Arguments mkTimer {W} _ _ _ _.
Arguments timer_init {W} w.
Arguments btn_timer {W} btn_report_gesture PORTBbits t.
Arguments timer_run {W} btn_report_gesture ports t.
Arguments tick_gesture {W} PORTBbits t.

(** A consumer that writes down every gesture it is called with. *)
Definition record_gesture (gesture : INPUT_t) (calls : list INPUT_t)
  : list INPUT_t :=
  calls ++ [gesture].

(** The gesture of the most recent call, [INPUT_IDLE] before any. *)
Definition last_reported (calls : list INPUT_t) : INPUT_t :=
  last calls INPUT_IDLE.

(** The static [last_input] is the gesture the consumer was last called
    with. *)
Definition last_input_reported (t : Timer_t (list INPUT_t)) : Prop :=
  last_input t = last_reported (world t).

(** ** States the runs leave, and what they keep *)

(** The debouncer a run of calls leaves behind. *)
Definition debounce_final (samples : list ButtonState_t) (d : Debounce_t)
  : Debounce_t := snd (debounce_run samples d).

(** The double-click timer is within its window, runs only while a second
    press is awaited, and a double-click state has used up its own flag. *)
Definition double_click_inv (i : InputState_t) : Prop :=
  0 <= double_click_timer i <= DOUBLE_CLICK_WINDOW /\
  (0 < double_click_timer i ->
   waiting_for_second_up i || waiting_for_second_down i = true) /\
  (state i = INPUT_DOUBLE_UP -> waiting_for_second_up i = false) /\
  (state i = INPUT_DOUBLE_DOWN -> waiting_for_second_down i = false).

(** Every gesture of the list differs from the one before it, the first
    from [prev]. *)
Fixpoint changes_only (prev : INPUT_t) (calls : list INPUT_t) : bool :=
  match calls with
  | [] => true
  | g :: rest => negb (INPUT_eqb g prev) && changes_only g rest
  end.

(** * Proof support *)

(** Unfolds one call on a state given field by field. *)
Ltac gesture_step :=
  unfold btn_gesture, tick_double_click_timer, gesture_switch,
    set_state, set_save_hold, set_double_click_timer,
    set_waiting_for_second_up, set_waiting_for_second_down,
    PRESSED, RELEASED, Both, Neither, UpOnly, DownOnly;
  cbn [save_hold double_click_timer waiting_for_second_up
       waiting_for_second_down state UP DOWN negb andb fst snd].

(** The same for the [switch] alone, and for the fields of a state. *)
Ltac input_fields :=
  cbn [save_hold double_click_timer waiting_for_second_up
       waiting_for_second_down state UP DOWN negb andb orb fst snd].

Ltac switch_step :=
  unfold gesture_switch, set_state, set_save_hold, set_double_click_timer,
    set_waiting_for_second_up, set_waiting_for_second_down,
    PRESSED, RELEASED;
  input_fields.

(** * Debouncing *)

Lemma BUTTON_CHANGE_same (b : ButtonState_t) : BUTTON_CHANGE b b = false.
Proof.
  unfold BUTTON_CHANGE. now rewrite !Bool.eqb_reflx.
Qed.

(** A call on a changed sample restarts the count and keeps the sample. *)
Lemma btn_debounce_change (b : ButtonState_t) (d : Debounce_t) :
  BUTTON_CHANGE (last_state d) b = true ->
  btn_debounce b d = (false, {| count := 0; last_state := b |}).
Proof.
  intros Hc. unfold btn_debounce. now rewrite Hc.
Qed.

(** A call on the retained sample counts one further tick, and confirms and
    starts over on reaching the threshold. *)
Lemma btn_debounce_steady (b : ButtonState_t) (c : Z) :
  0 <= c < DEBOUNCE_THRESHOLD ->
  btn_debounce b {| count := c; last_state := b |} =
    if c + 1 =? DEBOUNCE_THRESHOLD
    then (true, {| count := 0; last_state := b |})
    else (false, {| count := c + 1; last_state := b |}).
Proof.
  unfold DEBOUNCE_THRESHOLD. intros Hc.
  unfold btn_debounce, DEBOUNCE_THRESHOLD; cbn [last_state count].
  rewrite BUTTON_CHANGE_same; cbn [last_state count].
  unfold uint8. rewrite Z.mod_small by lia.
  destruct (Z.leb_spec 200 (c + 1)), (Z.eqb_spec (c + 1) 200);
    try lia; reflexivity.
Qed.

(** The count never runs ahead of the number of calls since it was last
    low, whatever the samples are. *)
Lemma btn_debounce_count_le (b : ButtonState_t) (d : Debounce_t) :
  0 <= count d -> count d + 1 < DEBOUNCE_THRESHOLD ->
  fst (btn_debounce b d) = false /\
  0 <= count (snd (btn_debounce b d)) <= count d + 1.
Proof.
  unfold DEBOUNCE_THRESHOLD. intros H0 H1.
  unfold btn_debounce, DEBOUNCE_THRESHOLD.
  destruct (BUTTON_CHANGE (last_state d) b); cbn [count last_state].
  - cbn. lia.
  - unfold uint8. rewrite Z.mod_small by lia.
    destruct (Z.leb_spec 200 (count d + 1)); [lia|]. cbn. lia.
Qed.

Lemma debounce_run_quiet (l : list ButtonState_t) :
  forall (d : Debounce_t) (i : nat),
    0 <= count d ->
    count d + Z.of_nat i + 1 < DEBOUNCE_THRESHOLD ->
    (i < length l)%nat ->
    nth i (fst (debounce_run l d)) true = false.
Proof.
  induction l as [|b l IH]; intros d i H0 H1 Hi; cbn [length] in Hi; [lia|].
  cbn [debounce_run].
  destruct (btn_debounce_count_le b d H0) as [Hr Hc]; [lia|].
  destruct (btn_debounce b d) as [r d'] eqn:E; cbn [fst snd] in Hr, Hc.
  specialize (IH d').
  destruct (debounce_run l d') as [rs d''] eqn:E'; cbn [fst] in *.
  destruct i as [|i]; cbn [nth]; [exact Hr|].
  apply IH; lia.
Qed.

Lemma debounce_run_steady (n : nat) :
  forall (b : ButtonState_t) (c : Z) (i : nat),
    0 <= c < DEBOUNCE_THRESHOLD ->
    (i < n)%nat ->
    nth i (fst (debounce_run (repeat b n) {| count := c; last_state := b |}))
        false
    = ((c + Z.of_nat i + 1) mod DEBOUNCE_THRESHOLD =? 0).
Proof.
  induction n as [|n IH]; intros b c i Hc Hi; [lia|].
  cbn [repeat debounce_run].
  rewrite (btn_debounce_steady b c Hc).
  unfold DEBOUNCE_THRESHOLD in *.
  destruct (Z.eqb_spec (c + 1) 200) as [E|E].
  - specialize (IH b 0).
    destruct (debounce_run (repeat b n) {| count := 0; last_state := b |})
      as [rs d'] eqn:E'; cbn [fst] in *.
    destruct i as [|i]; cbn [nth].
    + replace (c + Z.of_nat 0 + 1) with 200 by lia. reflexivity.
    + rewrite IH by lia.
      replace (c + Z.of_nat (S i) + 1) with (0 + Z.of_nat i + 1 + 1 * 200)
        by lia.
      now rewrite Z.mod_add by lia.
  - specialize (IH b (c + 1)).
    destruct (debounce_run (repeat b n) {| count := c + 1; last_state := b |})
      as [rs d'] eqn:E'; cbn [fst] in *.
    destruct i as [|i]; cbn [nth].
    + symmetry. apply Z.eqb_neq.
      rewrite Z.mod_small by lia. lia.
    + rewrite IH by lia. f_equal. f_equal. lia.
Qed.

(** C2, as amended: when a sample first appears at tick 0 of a run (it
    differs from the retained one) and is held through tick
    [k * DEBOUNCE_THRESHOLD], so for [k * DEBOUNCE_THRESHOLD + 1] calls,
    [btn_debounce] returns true exactly at the ticks [DEBOUNCE_THRESHOLD],
    [2 * DEBOUNCE_THRESHOLD], ..., [k * DEBOUNCE_THRESHOLD] counted from
    tick 0, and false at every other tick of the run. *)
Theorem btn_debounce_periodic (d : Debounce_t) (b : ButtonState_t)
    (k i : nat) :
  BUTTON_CHANGE (last_state d) b = true ->
  (i <= k * Z.to_nat DEBOUNCE_THRESHOLD)%nat ->
  nth i (fst (debounce_run
                (repeat b (S (k * Z.to_nat DEBOUNCE_THRESHOLD))) d)) false
  = (0 <? Z.of_nat i) && (Z.of_nat i mod DEBOUNCE_THRESHOLD =? 0).
Proof.
  intros Hc Hi. cbn [repeat debounce_run].
  rewrite (btn_debounce_change b d Hc).
  pose proof (debounce_run_steady (k * Z.to_nat DEBOUNCE_THRESHOLD) b 0) as HS.
  destruct (debounce_run (repeat b (k * Z.to_nat DEBOUNCE_THRESHOLD))
              {| count := 0; last_state := b |}) as [rs d'] eqn:E.
  cbn [fst] in *.
  destruct i as [|i]; cbn [nth]; [reflexivity|].
  rewrite HS; [| now unfold DEBOUNCE_THRESHOLD | lia].
  replace (0 <? Z.of_nat (S i)) with true by (symmetry; apply Z.ltb_lt; lia).
  cbn [andb]. f_equal. f_equal. lia.
Qed.

(** The neither-pressed sample, first seen after power-on and held through
    tick 400: confirmed at ticks 200 and 400 only. *)
Lemma btn_debounce_periodic_witness :
  BUTTON_CHANGE (last_state debouncer_init) Neither = true /\
  (400 <= 2 * Z.to_nat DEBOUNCE_THRESHOLD)%nat /\
  nth 400 (fst (debounce_run
                  (repeat Neither (S (2 * Z.to_nat DEBOUNCE_THRESHOLD)))
                  debouncer_init)) false
  = (0 <? Z.of_nat 400) && (Z.of_nat 400 mod DEBOUNCE_THRESHOLD =? 0).
Proof.
  split; [reflexivity|]. split; [vm_compute; lia|].
  apply (btn_debounce_periodic debouncer_init Neither 2 400).
  - reflexivity.
  - vm_compute. lia.
Defined.

(** C2, as stated, fails: the neither-pressed sample held for the
    [DEBOUNCE_THRESHOLD] ticks after power-on is not confirmed at any tick
    of that run, its last tick included; the confirmation comes one tick
    later. *)
Lemma btn_debounce_periodic_counterexample :
  fst (debounce_run (repeat Neither 200) debouncer_init) = repeat false 200 /\
  nth 199 (fst (debounce_run (repeat Neither 200) debouncer_init)) true
    = false /\
  fst (debounce_run (repeat Neither 201) debouncer_init)
    = repeat false 200 ++ [true].
Proof.
  repeat split; vm_compute; reflexivity.
Qed.

(** C3: when the sample changes at tick t (the first call below), every
    call from t through t + DEBOUNCE_THRESHOLD - 1 returns false, whatever
    the samples of the later ticks are. *)
Theorem btn_debounce_suppression (d : Debounce_t) (b : ButtonState_t)
    (later : list ButtonState_t) (i : nat) :
  BUTTON_CHANGE (last_state d) b = true ->
  Z.of_nat i < DEBOUNCE_THRESHOLD ->
  (i < length (b :: later))%nat ->
  nth i (fst (debounce_run (b :: later) d)) true = false.
Proof.
  intros Hc Hi Hlen. cbn [debounce_run].
  rewrite (btn_debounce_change b d Hc).
  pose proof (debounce_run_quiet later {| count := 0; last_state := b |})
    as HQ.
  destruct (debounce_run later {| count := 0; last_state := b |})
    as [rs d'] eqn:E.
  cbn [fst] in *.
  destruct i as [|i]; cbn [nth]; [reflexivity|].
  cbn [length] in Hlen.
  apply HQ; cbn [count]; lia.
Qed.

(** An up press after power-on, followed by 199 further ticks of it: the
    tick t + 199 returns false. *)
Lemma btn_debounce_suppression_witness :
  BUTTON_CHANGE (last_state debouncer_init) UpOnly = true /\
  Z.of_nat 199 < DEBOUNCE_THRESHOLD /\
  (199 < length (UpOnly :: repeat UpOnly 199))%nat /\
  nth 199 (fst (debounce_run (UpOnly :: repeat UpOnly 199) debouncer_init))
      true = false.
Proof.
  split; [reflexivity|]. split; [reflexivity|].
  split; [vm_compute; lia|].
  apply (btn_debounce_suppression debouncer_init UpOnly (repeat UpOnly 199) 199).
  - reflexivity.
  - reflexivity.
  - vm_compute. lia.
Defined.

(** * Gesture recognition *)

Lemma gesture_outputs_cons b l i :
  gesture_outputs (b :: l) i =
    fst (btn_gesture b i) :: gesture_outputs l (snd (btn_gesture b i)).
Proof.
  unfold gesture_outputs. cbn [gesture_run].
  destruct (btn_gesture b i) as [g i1]. cbn [fst snd].
  destruct (gesture_run l i1) as [gs i2]. reflexivity.
Qed.

Lemma gesture_final_cons b l i :
  gesture_final (b :: l) i = gesture_final l (snd (btn_gesture b i)).
Proof.
  unfold gesture_final. cbn [gesture_run].
  destruct (btn_gesture b i) as [g i1]. cbn [fst snd].
  destruct (gesture_run l i1) as [gs i2]. reflexivity.
Qed.

Lemma gesture_outputs_app l1 : forall l2 i,
  gesture_outputs (l1 ++ l2) i =
    gesture_outputs l1 i ++ gesture_outputs l2 (gesture_final l1 i).
Proof.
  induction l1 as [|b l1 IH]; intros l2 i; [reflexivity|].
  rewrite <- app_comm_cons, !gesture_outputs_cons, gesture_final_cons, IH.
  reflexivity.
Qed.

Lemma gesture_final_app l1 : forall l2 i,
  gesture_final (l1 ++ l2) i = gesture_final l2 (gesture_final l1 i).
Proof.
  induction l1 as [|b l1 IH]; intros l2 i; [reflexivity|].
  rewrite <- app_comm_cons, !gesture_final_cons, IH. reflexivity.
Qed.

(** The value [btn_gesture] returns is the state it leaves. *)
Lemma btn_gesture_returns_state b i :
  fst (btn_gesture b i) = state (snd (btn_gesture b i)).
Proof. reflexivity. Qed.

(** The timer block touches neither the hold counter nor the state. *)
Lemma tick_double_click_timer_keeps i :
  save_hold (tick_double_click_timer i) = save_hold i /\
  state (tick_double_click_timer i) = state i.
Proof.
  unfold tick_double_click_timer.
  destruct (0 <? double_click_timer i); [|easy].
  cbn. destruct (uint8 (double_click_timer i - 1) =? 0); easy.
Qed.

(** ** The save hold *)

Lemma btn_gesture_idle_both (i : InputState_t) :
  state i = INPUT_IDLE ->
  0 <= save_hold i < SAVE_HOLD_THRESHOLD ->
  let i' := snd (btn_gesture Both i) in
  if save_hold i + 1 =? SAVE_HOLD_THRESHOLD
  then state i' = INPUT_SAVE /\ save_hold i' = 0
  else state i' = INPUT_IDLE /\ save_hold i' = save_hold i + 1.
Proof.
  unfold SAVE_HOLD_THRESHOLD. intros Hs Hh.
  destruct (tick_double_click_timer_keeps i) as [Kh Ks].
  unfold btn_gesture, gesture_switch. rewrite Ks, Hs.
  unfold PRESSED, RELEASED, Both, SAVE_HOLD_THRESHOLD, set_state,
    set_save_hold, uint8.
  cbn [UP DOWN negb andb snd save_hold state].
  rewrite Kh, Z.mod_small by lia.
  destruct (Z.leb_spec 60 (save_hold i + 1)),
           (Z.eqb_spec (save_hold i + 1) 60); try lia; cbn; auto.
Qed.

Lemma btn_gesture_save_both (i : InputState_t) :
  state i = INPUT_SAVE ->
  state (snd (btn_gesture Both i)) = INPUT_SAVE /\
  save_hold (snd (btn_gesture Both i)) = save_hold i.
Proof.
  intros Hs. destruct (tick_double_click_timer_keeps i) as [Kh Ks].
  unfold btn_gesture, gesture_switch. rewrite Ks, Hs. cbn. auto.
Qed.

Lemma btn_gesture_save_neither (i : InputState_t) :
  state i = INPUT_SAVE ->
  fst (btn_gesture Neither i) = INPUT_IDLE.
Proof.
  intros Hs. destruct (tick_double_click_timer_keeps i) as [Kh Ks].
  unfold btn_gesture, gesture_switch. rewrite Ks, Hs. reflexivity.
Qed.

(** While the hold counter stays below the threshold the gesture stays
    idle and every call counts. *)
Lemma gesture_run_holding (n : nat) : forall i,
  state i = INPUT_IDLE ->
  0 <= save_hold i ->
  save_hold i + Z.of_nat n < SAVE_HOLD_THRESHOLD ->
  gesture_outputs (repeat Both n) i = repeat INPUT_IDLE n /\
  state (gesture_final (repeat Both n) i) = INPUT_IDLE /\
  save_hold (gesture_final (repeat Both n) i) = save_hold i + Z.of_nat n.
Proof.
  induction n as [|n IH]; intros i Hs H0 Hn.
  - cbn. repeat split; [assumption | lia].
  - cbn [repeat]. rewrite gesture_outputs_cons, gesture_final_cons.
    rewrite btn_gesture_returns_state.
    pose proof (btn_gesture_idle_both i Hs) as HB. cbv zeta in HB.
    destruct (Z.eqb_spec (save_hold i + 1) SAVE_HOLD_THRESHOLD) as [E|E];
      [lia|].
    destruct HB as [Hs' Hh']; [lia|].
    destruct (IH (snd (btn_gesture Both i))) as (IH1 & IH2 & IH3);
      [assumption | lia | lia |].
    rewrite IH1, IH2, IH3, Hs', Hh'. repeat split; try reflexivity; lia.
Qed.

(** Once saving, holding on changes nothing. *)
Lemma gesture_run_saving (n : nat) : forall i,
  state i = INPUT_SAVE ->
  gesture_outputs (repeat Both n) i = repeat INPUT_SAVE n /\
  state (gesture_final (repeat Both n) i) = INPUT_SAVE /\
  save_hold (gesture_final (repeat Both n) i) = save_hold i.
Proof.
  induction n as [|n IH]; intros i Hs.
  - cbn. auto.
  - cbn [repeat]. rewrite gesture_outputs_cons, gesture_final_cons.
    rewrite btn_gesture_returns_state.
    destruct (btn_gesture_save_both i Hs) as [Hs' Hh'].
    destruct (IH (snd (btn_gesture Both i)) Hs') as (IH1 & IH2 & IH3).
    rewrite IH1, IH2, IH3, Hs', Hh'. auto.
Qed.

(** C4: from idle, [SAVE_HOLD_THRESHOLD] consecutive calls with both
    buttons pressed end in the save gesture: the calls return idle while the
    hold counter (at h before the first call) climbs, save from the call
    that takes it to the threshold, where it is set back to 0; a call with
    both buttons released then returns idle.  From the initial state, where
    h = 0, the save gesture first shows at the last of the calls. *)
Theorem btn_gesture_save_hold (i : InputState_t) :
  state i = INPUT_IDLE ->
  0 <= save_hold i < SAVE_HOLD_THRESHOLD ->
  let n := Z.to_nat SAVE_HOLD_THRESHOLD in
  let h := Z.to_nat (save_hold i) in
  gesture_outputs (repeat Both n) i =
    repeat INPUT_IDLE (n - 1 - h) ++ repeat INPUT_SAVE (1 + h) /\
  last (gesture_outputs (repeat Both n) i) INPUT_IDLE = INPUT_SAVE /\
  state (gesture_final (repeat Both n) i) = INPUT_SAVE /\
  save_hold (gesture_final (repeat Both n) i) = 0 /\
  fst (btn_gesture Neither (gesture_final (repeat Both n) i)) = INPUT_IDLE.
Proof.
  intros Hs Hh n h.
  assert (Hn : n = ((n - 1 - h) + (1 + h))%nat).
  { subst n h. unfold SAVE_HOLD_THRESHOLD in *. lia. }
  destruct (gesture_run_holding (n - 1 - h) i Hs) as (A1 & A2 & A3);
    [lia | subst n h; unfold SAVE_HOLD_THRESHOLD in *; lia |].
  set (i1 := gesture_final (repeat Both (n - 1 - h)) i) in *.
  pose proof (btn_gesture_idle_both i1 A2) as HB. cbv zeta in HB.
  assert (E : save_hold i1 + 1 = SAVE_HOLD_THRESHOLD).
  { rewrite A3. subst n h. unfold SAVE_HOLD_THRESHOLD in *. lia. }
  rewrite (proj2 (Z.eqb_eq _ _) E) in HB.
  destruct HB as [B1 B2]; [unfold SAVE_HOLD_THRESHOLD in *; lia|].
  set (i2 := snd (btn_gesture Both i1)) in *.
  destruct (gesture_run_saving h i2 B1) as (C1 & C2 & C3).
  assert (Hout : gesture_outputs (repeat Both n) i =
                 repeat INPUT_IDLE (n - 1 - h) ++ repeat INPUT_SAVE (1 + h)).
  { rewrite Hn at 1. rewrite repeat_app, gesture_outputs_app, A1.
    fold i1. cbn [Nat.add repeat].
    rewrite gesture_outputs_cons, btn_gesture_returns_state.
    fold i2. now rewrite B1, C1. }
  assert (Hfin : gesture_final (repeat Both n) i =
                 gesture_final (repeat Both h) i2).
  { rewrite Hn at 1. rewrite repeat_app, gesture_final_app.
    fold i1. cbn [Nat.add repeat]. now rewrite gesture_final_cons. }
  rewrite Hout, Hfin, C2, C3, B2.
  repeat split; try reflexivity.
  - replace (1 + h)%nat with (h + 1)%nat by lia.
    rewrite repeat_app, app_assoc. cbn [repeat]. apply last_last.
  - now apply btn_gesture_save_neither.
Qed.

(** From the initial state the sixty calls return idle 59 times, then
    save. *)
Lemma btn_gesture_save_hold_witness :
  gesture_outputs (repeat Both (Z.to_nat SAVE_HOLD_THRESHOLD)) input_init =
    repeat INPUT_IDLE 59 ++ [INPUT_SAVE] /\
  fst (btn_gesture Neither
         (gesture_final (repeat Both (Z.to_nat SAVE_HOLD_THRESHOLD))
            input_init)) = INPUT_IDLE.
Proof.
  pose proof (btn_gesture_save_hold input_init) as H.
  destruct H as (H1 & _ & _ & _ & H5).
  - reflexivity.
  - unfold SAVE_HOLD_THRESHOLD. cbn. lia.
  - split; [exact H1 | exact H5].
Defined.

(** ** Double clicks *)

(** An up press from idle with nothing pending is a first press. *)
Lemma btn_gesture_first_up (h t : Z) :
  exists t',
    btn_gesture UpOnly (mkInputState h t false false INPUT_IDLE) =
      (INPUT_UP, mkInputState h t' false false INPUT_UP).
Proof.
  gesture_step.
  destruct (0 <? t); cbn; [|eauto].
  destruct (uint8 (t - 1) =? 0); cbn; eauto.
Qed.

(** The release after an up press starts the wait for the second one. *)
Lemma btn_gesture_release_up (h t : Z) (u : bool) :
  btn_gesture Neither (mkInputState h t u false INPUT_UP) =
    (INPUT_IDLE, mkInputState h DOUBLE_CLICK_WINDOW true false INPUT_IDLE).
Proof.
  gesture_step.
  destruct (0 <? t); cbn; [|reflexivity].
  destruct (uint8 (t - 1) =? 0); reflexivity.
Qed.

Lemma gesture_run_click_up (i : InputState_t) :
  state i = INPUT_IDLE ->
  waiting_for_second_up i = false ->
  waiting_for_second_down i = false ->
  gesture_outputs [UpOnly; Neither] i = [INPUT_UP; INPUT_IDLE] /\
  gesture_final [UpOnly; Neither] i =
    mkInputState (save_hold i) DOUBLE_CLICK_WINDOW true false INPUT_IDLE.
Proof.
  destruct i as [h t u d st]; cbn [state waiting_for_second_up
    waiting_for_second_down save_hold]. intros -> -> ->.
  destruct (btn_gesture_first_up h t) as [t' E].
  rewrite !gesture_outputs_cons, !gesture_final_cons, E; cbn [fst snd].
  rewrite btn_gesture_release_up. split; reflexivity.
Qed.

(** With the timer stopped, idle with both buttons released is a fixed
    point: the waiting flags stay as they are. *)
Lemma gesture_run_idle_stopped (n : nat) (h : Z) (u d : bool) :
  gesture_outputs (repeat Neither n) (mkInputState h 0 u d INPUT_IDLE)
    = repeat INPUT_IDLE n /\
  gesture_final (repeat Neither n) (mkInputState h 0 u d INPUT_IDLE)
    = mkInputState h 0 u d INPUT_IDLE.
Proof.
  induction n as [|n [IH1 IH2]]; [split; reflexivity|].
  cbn [repeat]. rewrite gesture_outputs_cons, gesture_final_cons.
  replace (btn_gesture Neither (mkInputState h 0 u d INPUT_IDLE))
    with (INPUT_IDLE, mkInputState h 0 u d INPUT_IDLE) by reflexivity.
  cbn [fst snd]. rewrite IH1, IH2. split; reflexivity.
Qed.

(** With the timer running, each idle call with both buttons released takes
    one tick off it; the waiting flags fall when it reaches 0. *)
Lemma gesture_run_idle_waiting (n : nat) : forall (h t : Z) (u d : bool),
  0 < t <= 255 ->
  gesture_outputs (repeat Neither n) (mkInputState h t u d INPUT_IDLE)
    = repeat INPUT_IDLE n /\
  gesture_final (repeat Neither n) (mkInputState h t u d INPUT_IDLE)
    = mkInputState h (Z.max 0 (t - Z.of_nat n))
        (u && (Z.of_nat n <? t)) (d && (Z.of_nat n <? t)) INPUT_IDLE.
Proof.
  induction n as [|n IH]; intros h t u d Ht.
  - cbn [repeat]. split; [reflexivity|].
    unfold gesture_final; cbn [gesture_run snd].
    replace (Z.of_nat 0 <? t) with true by (symmetry; apply Z.ltb_lt; lia).
    rewrite !andb_true_r. f_equal. lia.
  - cbn [repeat]. rewrite gesture_outputs_cons, gesture_final_cons.
    assert (E : btn_gesture Neither (mkInputState h t u d INPUT_IDLE) =
                (INPUT_IDLE,
                 mkInputState h (t - 1) (u && (1 <? t)) (d && (1 <? t))
                   INPUT_IDLE)).
    { gesture_step. unfold uint8.
      replace (0 <? t) with true by (symmetry; apply Z.ltb_lt; lia).
      rewrite Z.mod_small by lia.
      destruct (Z.eqb_spec (t - 1) 0) as [E|E], (Z.ltb_spec 1 t);
        try lia; cbn; now rewrite ?andb_true_r, ?andb_false_r. }
    rewrite E; cbn [fst snd].
    destruct (Z.eq_dec t 1) as [->|Hne].
    + change (1 - 1) with 0. change (1 <? 1) with false.
      rewrite !andb_false_r.
      destruct (gesture_run_idle_stopped n h false false) as [S1 S2].
      rewrite S1, S2. split; [reflexivity|].
      replace (Z.of_nat (S n) <? 1) with false
        by (symmetry; apply Z.ltb_ge; lia).
      rewrite !andb_false_r. f_equal. lia.
    + destruct (IH h (t - 1) (u && (1 <? t)) (d && (1 <? t))) as [I1 I2];
        [lia|].
      rewrite I1, I2. split; [reflexivity|].
      replace (1 <? t) with true by (symmetry; apply Z.ltb_lt; lia).
      rewrite !andb_true_r.
      f_equal; [lia | |];
        (destruct (Z.ltb_spec (Z.of_nat n) (t - 1)),
                  (Z.ltb_spec (Z.of_nat (S n)) t); try lia; reflexivity).
Qed.

(** An up press from idle while the second up press is awaited and the
    timer has more than one tick left. *)
Lemma btn_gesture_second_up (h t : Z) (d : bool) :
  1 < t <= 255 ->
  fst (btn_gesture UpOnly (mkInputState h t true d INPUT_IDLE))
    = INPUT_DOUBLE_UP.
Proof.
  intros Ht. gesture_step. unfold uint8.
  replace (0 <? t) with true by (symmetry; apply Z.ltb_lt; lia).
  rewrite Z.mod_small by lia.
  destruct (Z.eqb_spec (t - 1) 0); [lia|]. reflexivity.
Qed.

(** An up press from idle on the last tick of the timer, or after it. *)
Lemma btn_gesture_late_up (h t : Z) (u d : bool) :
  t = 1 \/ (t = 0 /\ u = false) ->
  fst (btn_gesture UpOnly (mkInputState h t u d INPUT_IDLE)) = INPUT_UP.
Proof.
  intros [-> | [-> ->]]; reflexivity.
Qed.

(** C5, as amended: from idle with no waiting flag set, an up press, its
    release and a second up press that comes fewer than
    [DOUBLE_CLICK_WINDOW] calls after the release (buttons released in the
    n calls in between) make [btn_gesture] return the double-click up on
    that second press. *)
Theorem btn_gesture_double_click_up (i : InputState_t) (n : nat) :
  state i = INPUT_IDLE ->
  waiting_for_second_up i = false ->
  waiting_for_second_down i = false ->
  Z.of_nat n + 1 < DOUBLE_CLICK_WINDOW ->
  gesture_outputs ([UpOnly; Neither] ++ repeat Neither n ++ [UpOnly]) i =
    [INPUT_UP; INPUT_IDLE] ++ repeat INPUT_IDLE n ++ [INPUT_DOUBLE_UP].
Proof.
  intros Hs Hu Hd Hn. unfold DOUBLE_CLICK_WINDOW in Hn.
  destruct (gesture_run_click_up i Hs Hu Hd) as [C1 C2].
  rewrite gesture_outputs_app, C1, C2. f_equal.
  destruct (gesture_run_idle_waiting n (save_hold i) DOUBLE_CLICK_WINDOW
              true false) as [W1 W2]; [unfold DOUBLE_CLICK_WINDOW; lia|].
  rewrite gesture_outputs_app, W1, W2. f_equal.
  rewrite gesture_outputs_cons. cbn [gesture_outputs gesture_run fst].
  unfold DOUBLE_CLICK_WINDOW.
  replace (Z.of_nat n <? 10) with true by (symmetry; apply Z.ltb_lt; lia).
  cbn [andb]. rewrite btn_gesture_second_up by lia. reflexivity.
Qed.

(** The second press nine calls after the release. *)
Lemma btn_gesture_double_click_up_witness :
  state input_init = INPUT_IDLE /\
  Z.of_nat 8 + 1 < DOUBLE_CLICK_WINDOW /\
  gesture_outputs ([UpOnly; Neither] ++ repeat Neither 8 ++ [UpOnly])
    input_init =
    [INPUT_UP; INPUT_IDLE] ++ repeat INPUT_IDLE 8 ++ [INPUT_DOUBLE_UP].
Proof.
  split; [reflexivity|]. split; [reflexivity|].
  apply (btn_gesture_double_click_up input_init 8); reflexivity.
Defined.

(** C5, as stated, fails: a second up press on the tenth call after the
    release is within [DOUBLE_CLICK_WINDOW] calls of it and is taken for a
    first press. *)
Lemma btn_gesture_double_click_up_counterexample :
  gesture_outputs ([UpOnly; Neither] ++ repeat Neither 9 ++ [UpOnly])
    input_init =
    [INPUT_UP; INPUT_IDLE] ++ repeat INPUT_IDLE 9 ++ [INPUT_UP] /\
  Z.of_nat 9 + 1 <= DOUBLE_CLICK_WINDOW.
Proof.
  split; [reflexivity | discriminate].
Qed.

(** C6: the same presses with the second one [DOUBLE_CLICK_WINDOW] calls
    or more after the release: by the time the call of the second press
    reaches its [switch] the timer has reached 0 and taken the waiting flag
    with it, and the press is a first press again. *)
Theorem btn_gesture_double_click_expired (i : InputState_t) (n : nat) :
  state i = INPUT_IDLE ->
  waiting_for_second_up i = false ->
  waiting_for_second_down i = false ->
  DOUBLE_CLICK_WINDOW <= Z.of_nat n + 1 ->
  gesture_outputs ([UpOnly; Neither] ++ repeat Neither n ++ [UpOnly]) i =
    [INPUT_UP; INPUT_IDLE] ++ repeat INPUT_IDLE n ++ [INPUT_UP] /\
  waiting_for_second_up
    (tick_double_click_timer
       (gesture_final ([UpOnly; Neither] ++ repeat Neither n) i)) = false.
Proof.
  intros Hs Hu Hd Hn. unfold DOUBLE_CLICK_WINDOW in Hn.
  destruct (gesture_run_click_up i Hs Hu Hd) as [C1 C2].
  rewrite gesture_outputs_app, gesture_final_app, C1, C2.
  destruct (gesture_run_idle_waiting n (save_hold i) DOUBLE_CLICK_WINDOW
              true false) as [W1 W2]; [unfold DOUBLE_CLICK_WINDOW; lia|].
  rewrite W2. unfold DOUBLE_CLICK_WINDOW in *.
  assert (Ht : Z.max 0 (10 - Z.of_nat n) = 1 \/
               Z.max 0 (10 - Z.of_nat n) = 0 /\
               true && (Z.of_nat n <? 10) = false).
  { destruct (Z.ltb_spec (Z.of_nat n) 10); cbn [andb]; lia. }
  split.
  - f_equal. rewrite gesture_outputs_app, W1, W2. f_equal.
    rewrite gesture_outputs_cons. cbn [gesture_outputs gesture_run fst].
    now rewrite btn_gesture_late_up.
  - destruct Ht as [-> | [-> ->]]; reflexivity.
Qed.

(** The second press eleven calls after the release. *)
Lemma btn_gesture_double_click_expired_witness :
  state input_init = INPUT_IDLE /\
  DOUBLE_CLICK_WINDOW <= Z.of_nat 10 + 1 /\
  gesture_outputs ([UpOnly; Neither] ++ repeat Neither 10 ++ [UpOnly])
    input_init =
    [INPUT_UP; INPUT_IDLE] ++ repeat INPUT_IDLE 10 ++ [INPUT_UP].
Proof.
  split; [reflexivity|]. split; [discriminate|].
  apply (btn_gesture_double_click_expired input_init 10);
    [reflexivity .. | discriminate].
Defined.

(** ** The double-click states *)

(** C7: in the double-click-up state every call with a button pressed
    leaves the state, and the value returned, at double-click up; the call
    with both buttons released, and no other, takes it to idle. *)
Theorem btn_gesture_double_up_sticky (i : InputState_t) (b : ButtonState_t) :
  state i = INPUT_DOUBLE_UP ->
  fst (btn_gesture b i) = state (snd (btn_gesture b i)) /\
  (b <> Neither -> fst (btn_gesture b i) = INPUT_DOUBLE_UP) /\
  (b = Neither -> fst (btn_gesture b i) = INPUT_IDLE) /\
  (fst (btn_gesture b i) = INPUT_IDLE -> b = Neither).
Proof.
  intros Hs. destruct (tick_double_click_timer_keeps i) as [_ Ks].
  split; [reflexivity|].
  unfold btn_gesture, gesture_switch. rewrite Ks, Hs.
  destruct b as [[|] [|]]; cbn; repeat split; intros H;
    first [reflexivity | discriminate H | now elim H].
Qed.

Lemma btn_gesture_double_up_sticky_witness :
  fst (btn_gesture DownOnly
         (mkInputState 0 0 false false INPUT_DOUBLE_UP)) = INPUT_DOUBLE_UP.
Proof.
  apply (btn_gesture_double_up_sticky
           (mkInputState 0 0 false false INPUT_DOUBLE_UP) DownOnly).
  - reflexivity.
  - discriminate.
Defined.

(** ** A waiting flag that outlives the timer *)

Lemma stale_down_step (b : ButtonState_t) (i : InputState_t) :
  stale_down i ->
  no_click (fst (btn_gesture b i)) = true ->
  stale_down (snd (btn_gesture b i)).
Proof.
  destruct i as [h t u d st].
  unfold stale_down; cbn [double_click_timer waiting_for_second_down state].
  intros (-> & -> & Hu & Hd).
  unfold btn_gesture.
  change (tick_double_click_timer (mkInputState h 0 u true st))
    with (mkInputState h 0 u true st).
  cbn [fst snd].
  destruct b as [[|] [|]], st, u; try congruence;
    unfold gesture_switch, set_state, set_save_hold, set_double_click_timer,
      set_waiting_for_second_up, set_waiting_for_second_down,
      PRESSED, RELEASED;
    cbn [save_hold double_click_timer waiting_for_second_up
         waiting_for_second_down state UP DOWN negb andb];
    try destruct (SAVE_HOLD_THRESHOLD <=? uint8 (h + 1));
    cbn [save_hold double_click_timer waiting_for_second_up
         waiting_for_second_down state no_click];
    intros Hq; first [discriminate Hq | repeat split; congruence].
Qed.

Lemma stale_down_run (btns : list ButtonState_t) :
  forall i,
    stale_down i ->
    forallb no_click (gesture_outputs btns i) = true ->
    stale_down (gesture_final btns i).
Proof.
  induction btns as [|b btns IH]; intros i Hi Hq; [exact Hi|].
  rewrite gesture_outputs_cons in Hq. cbn [forallb] in Hq.
  apply andb_true_iff in Hq as [Hq1 Hq2].
  rewrite gesture_final_cons.
  apply IH; [now apply stale_down_step | exact Hq2].
Qed.

(** C9, as amended: the down click, then within the window the up
    double-click, leave the timer at 0 with the flag for the second down
    press still set.  From any state with the timer at 0 and that flag set
    that is not in a single click, and for as long as [btn_gesture] reports
    no single click (whose release would start the timer again) and no
    double-click down, the timer stays at 0 and the flag stays set however
    many calls go by, and the call with the down button alone pressed made
    in idle returns the double-click down. *)
Theorem btn_gesture_stale_down_flag :
  stale_down
    (gesture_final [DownOnly; Neither; UpOnly; Neither; UpOnly] input_init) /\
  forall (i : InputState_t) (btns : list ButtonState_t),
    double_click_timer i = 0 ->
    waiting_for_second_down i = true ->
    state i <> INPUT_UP -> state i <> INPUT_DOWN ->
    forallb no_click (gesture_outputs btns i) = true ->
    double_click_timer (gesture_final btns i) = 0 /\
    waiting_for_second_down (gesture_final btns i) = true /\
    (state (gesture_final btns i) = INPUT_IDLE ->
     fst (btn_gesture DownOnly (gesture_final btns i)) = INPUT_DOUBLE_DOWN).
Proof.
  split.
  - repeat split; vm_compute; congruence.
  - intros i btns Ht Hw Hu Hd Hq.
    destruct (stale_down_run btns i) as (Ft & Fw & _ & _);
      [repeat split; assumption | exact Hq |].
    repeat split; [exact Ft | exact Fw |].
    destruct (gesture_final btns i) as [h t u d st].
    cbn [double_click_timer waiting_for_second_down state] in *.
    intros ->. subst t d. reflexivity.
Qed.

(** After the down click and the up double-click the buttons stay released
    for a thousand calls; the down press that follows is a double-click. *)
Lemma btn_gesture_stale_down_flag_witness :
  let i :=
    gesture_final [DownOnly; Neither; UpOnly; Neither; UpOnly] input_init in
  forallb no_click (gesture_outputs (repeat Neither 1000) i) = true /\
  state (gesture_final (repeat Neither 1000) i) = INPUT_IDLE /\
  fst (btn_gesture DownOnly (gesture_final (repeat Neither 1000) i))
    = INPUT_DOUBLE_DOWN.
Proof.
  intros i.
  split; [vm_compute; reflexivity|]. split; [vm_compute; reflexivity|].
  destruct btn_gesture_stale_down_flag as [_ H].
  apply (H i (repeat Neither 1000)); try (vm_compute; reflexivity);
    vm_compute; discriminate.
Defined.

(** C9, as stated, fails.  After a further up press the timer is at 0 and
    the flag for the second down press is set; the release of that press
    starts the timer again, its expiry clears the flag, and the next down
    press made in idle is a first press.  The same from idle, when the up
    click comes among the calls that go by. *)
Lemma btn_gesture_stale_down_flag_counterexample :
  let i :=
    gesture_final
      [DownOnly; Neither; UpOnly; Neither; UpOnly; Neither; UpOnly]
      input_init in
  let j :=
    gesture_final
      [DownOnly; Neither; UpOnly; Neither; UpOnly; Neither] input_init in
  (double_click_timer i = 0 /\ waiting_for_second_down i = true /\
   gesture_outputs (repeat Neither 11 ++ [DownOnly]) i =
     repeat INPUT_IDLE 11 ++ [INPUT_DOWN]) /\
  (double_click_timer j = 0 /\ waiting_for_second_down j = true /\
   state j = INPUT_IDLE /\
   gesture_outputs ([UpOnly] ++ repeat Neither 11 ++ [DownOnly]) j =
     [INPUT_UP] ++ repeat INPUT_IDLE 11 ++ [INPUT_DOWN]).
Proof.
  cbv zeta. repeat split; vm_compute; reflexivity.
Qed.

(** ** The hold counter *)

Lemma save_hold_step (b : ButtonState_t) (i : InputState_t) :
  0 <= save_hold i < SAVE_HOLD_THRESHOLD ->
  save_hold (snd (btn_gesture b i)) =
    (if INPUT_eqb (state i) INPUT_IDLE
        && (PRESSED (UP b) && PRESSED (DOWN b))
     then if save_hold i + 1 =? SAVE_HOLD_THRESHOLD then 0
          else save_hold i + 1
     else save_hold i) /\
  (INPUT_eqb (state (snd (btn_gesture b i))) INPUT_SAVE
   && negb (INPUT_eqb (state i) INPUT_SAVE) =
   INPUT_eqb (state i) INPUT_IDLE
   && (PRESSED (UP b) && PRESSED (DOWN b))
   && (save_hold i + 1 =? SAVE_HOLD_THRESHOLD)).
Proof.
  unfold SAVE_HOLD_THRESHOLD. intros Hh.
  destruct (tick_double_click_timer_keeps i) as [Kh Ks].
  unfold btn_gesture, gesture_switch. rewrite Ks. cbn [snd].
  destruct (tick_double_click_timer i) as [h t u d st].
  cbn [save_hold state] in Kh, Ks. subst h st.
  unfold SAVE_HOLD_THRESHOLD, uint8, set_state, set_save_hold,
    set_double_click_timer, set_waiting_for_second_up,
    set_waiting_for_second_down, PRESSED, RELEASED.
  cbn [save_hold double_click_timer waiting_for_second_up
       waiting_for_second_down state].
  rewrite (Z.mod_small (save_hold i + 1) 256) by lia.
  destruct (state i), b as [[|] [|]], u, d; cbn [UP DOWN negb andb INPUT_eqb
    save_hold state]; try (split; reflexivity);
    destruct (Z.leb_spec 60 (save_hold i + 1)),
             (Z.eqb_spec (save_hold i + 1) 60); try lia; split; reflexivity.
Qed.

(** C10: after every call from the initial state the hold counter is in
    [0, SAVE_HOLD_THRESHOLD).  A call changes it only from idle with both
    buttons pressed: it adds one, without wrapping the [uint8_t] around,
    and puts it back to 0 when that reaches [SAVE_HOLD_THRESHOLD]; the
    calls that do so are those that enter the save state. *)
Theorem save_hold_bounded (btns : list ButtonState_t) (b : ButtonState_t) :
  let i := gesture_final btns input_init in
  let i' := snd (btn_gesture b i) in
  0 <= save_hold i < SAVE_HOLD_THRESHOLD /\
  0 <= save_hold i' < SAVE_HOLD_THRESHOLD /\
  uint8 (save_hold i + 1) = save_hold i + 1 /\
  save_hold i' =
    (if INPUT_eqb (state i) INPUT_IDLE
        && (PRESSED (UP b) && PRESSED (DOWN b))
     then if save_hold i + 1 =? SAVE_HOLD_THRESHOLD then 0
          else save_hold i + 1
     else save_hold i) /\
  (INPUT_eqb (state i') INPUT_SAVE && negb (INPUT_eqb (state i) INPUT_SAVE) =
   INPUT_eqb (state i) INPUT_IDLE
   && (PRESSED (UP b) && PRESSED (DOWN b))
   && (save_hold i + 1 =? SAVE_HOLD_THRESHOLD)).
Proof.
  assert (Hstep : forall x i0,
    0 <= save_hold i0 < SAVE_HOLD_THRESHOLD ->
    0 <= save_hold (snd (btn_gesture x i0)) < SAVE_HOLD_THRESHOLD).
  { intros x i0 H0.
    destruct (save_hold_step x i0 H0) as [E _]. rewrite E.
    unfold SAVE_HOLD_THRESHOLD in *.
    destruct (_ && _); [|lia].
    destruct (Z.eqb_spec (save_hold i0 + 1) 60); lia. }
  assert (Hinv : forall l i0,
    0 <= save_hold i0 < SAVE_HOLD_THRESHOLD ->
    0 <= save_hold (gesture_final l i0) < SAVE_HOLD_THRESHOLD).
  { induction l as [|x l IH]; intros i0 H0; [exact H0|].
    rewrite gesture_final_cons. apply IH, Hstep, H0. }
  intros i i'.
  assert (Hi : 0 <= save_hold i < SAVE_HOLD_THRESHOLD).
  { apply Hinv. unfold SAVE_HOLD_THRESHOLD. cbn. lia. }
  assert (Hi' : 0 <= save_hold i' < SAVE_HOLD_THRESHOLD).
  { apply Hstep, Hi. }
  destruct (save_hold_step b i Hi) as [E1 E2].
  repeat split; try tauto; try exact E1; try exact E2.
  unfold uint8, SAVE_HOLD_THRESHOLD in *. apply Z.mod_small. lia.
Qed.

(** * The timer interrupt *)

Lemma INPUT_eqb_eq (a b : INPUT_t) : INPUT_eqb a b = true <-> a = b.
Proof.
  destruct a, b; cbn; split; intros H; first [reflexivity | discriminate H].
Qed.

Lemma INPUT_eqb_neq (a b : INPUT_t) : INPUT_eqb a b = false <-> a <> b.
Proof.
  destruct a, b; cbn; split; intros H;
    first [reflexivity | discriminate H | now elim H | discriminate].
Qed.

(** ** The unset callback *)

(** With an assigned callback the interrupt returns. *)
Lemma btn_timer_assigned {W : Type} (report : INPUT_t -> W -> W) (p : Z)
    (t : Timer_t W) :
  btn_timer (Some report) p t <> Fault.
Proof.
  unfold btn_timer.
  destruct (btn_debounce (ButtonState_of_PORTB p) (debouncer t)) as [c d].
  destruct c; [|discriminate].
  destruct (btn_gesture (ButtonState_of_PORTB p) (input t)) as [g i'].
  destruct (negb (INPUT_eqb g (last_input t))); discriminate.
Qed.

(** C1, as amended: with [btn_report_gesture] unset, [btn_timer] calls
    through the null pointer exactly on the ticks where the debouncer
    confirms the sample and the gesture differs from the last one reported;
    on every other tick it returns and leaves the consumer alone.  With the
    pointer assigned every tick returns. *)
Theorem btn_timer_unset_callback {W : Type} (p : Z) (t : Timer_t W) :
  (btn_timer None p t = Fault <->
   exists g, tick_gesture p t = Some g /\ g <> last_input t) /\
  (forall t', btn_timer None p t = Done t' -> world t' = world t) /\
  (forall report, btn_timer (Some report) p t <> Fault).
Proof.
  unfold btn_timer, tick_gesture.
  destruct (btn_debounce (ButtonState_of_PORTB p) (debouncer t)) as [c d].
  cbn [fst]. destruct c.
  - destruct (btn_gesture (ButtonState_of_PORTB p) (input t)) as [g i'].
    cbn [fst].
    destruct (INPUT_eqb g (last_input t)) eqn:E; cbn [negb].
    + apply INPUT_eqb_eq in E. repeat split.
      * discriminate.
      * intros (g' & Hg & Hne). congruence.
      * intros t' Ht. injection Ht as <-. reflexivity.
      * discriminate.
    + apply INPUT_eqb_neq in E. repeat split.
      * intros _. exists g. split; [reflexivity | exact E].
      * discriminate.
      * discriminate.
  - repeat split.
    + discriminate.
    + intros (g & Hg & _). discriminate Hg.
    + intros t' Ht. injection Ht as <-. reflexivity.
    + discriminate.
Qed.

(** The up button has been pressed, alone, for 200 ticks since power-on;
    the next tick confirms it and reports through the null pointer. *)
Lemma btn_timer_unset_callback_witness :
  btn_timer None 1
    (mkTimer (mkDebounce 199 UpOnly) input_init INPUT_IDLE tt) = Fault.
Proof.
  apply (btn_timer_unset_callback 1
           (mkTimer (mkDebounce 199 UpOnly) input_init INPUT_IDLE tt)).
  exists INPUT_UP. split; [reflexivity | discriminate].
Defined.

(** C1, as stated, fails: from power-on, with the callback never assigned
    and PORTB read as 1 (up line low, down line high), the first 200 ticks
    return and the tick after them, on which the gesture changes from idle
    to up, does not. *)
Lemma btn_timer_unset_callback_counterexample :
  timer_run None (repeat 1 200) (timer_init tt) =
    Done (mkTimer (mkDebounce 199 UpOnly) input_init INPUT_IDLE tt) /\
  tick_gesture 1 (mkTimer (mkDebounce 199 UpOnly) input_init INPUT_IDLE tt)
    = Some INPUT_UP /\
  timer_run None (repeat 1 201) (timer_init tt) = Fault.
Proof.
  repeat split; vm_compute; reflexivity.
Qed.

(** ** Reporting *)

Lemma btn_timer_recorded (p : Z) (t : Timer_t (list INPUT_t)) :
  last_input_reported t ->
  exists t',
    btn_timer (Some record_gesture) p t = Done t' /\
    world t' =
      world t ++
      match tick_gesture p t with
      | Some g => if INPUT_eqb g (last_reported (world t)) then [] else [g]
      | None => []
      end /\
    last_input_reported t'.
Proof.
  unfold last_input_reported, btn_timer, tick_gesture. intros Hl.
  destruct (btn_debounce (ButtonState_of_PORTB p) (debouncer t)) as [c d].
  cbn [fst]. destruct c.
  - destruct (btn_gesture (ButtonState_of_PORTB p) (input t)) as [g i'].
    cbn [fst]. rewrite <- Hl.
    destruct (INPUT_eqb g (last_input t)); cbn [negb].
    + eexists. split; [reflexivity|]. cbn [world last_input].
      rewrite app_nil_r. split; [reflexivity | exact Hl].
    + eexists. split; [reflexivity|]. cbn [world last_input].
      split; [reflexivity|].
      unfold record_gesture, last_reported. now rewrite last_last.
  - eexists. split; [reflexivity|]. cbn [world last_input].
    rewrite app_nil_r. split; [reflexivity | exact Hl].
Qed.

Lemma timer_run_recorded (ports : list Z) :
  forall t t',
    last_input_reported t ->
    timer_run (Some record_gesture) ports t = Done t' ->
    last_input_reported t'.
Proof.
  induction ports as [|p ports IH]; intros t t' Hl Hr; cbn [timer_run] in Hr.
  - now injection Hr as <-.
  - destruct (btn_timer_recorded p t Hl) as (t1 & E & _ & Hl1).
    rewrite E in Hr. exact (IH t1 t' Hl1 Hr).
Qed.

(** With an assigned callback the interrupts always return. *)
Lemma timer_run_assigned {W : Type} (report : INPUT_t -> W -> W)
    (ports : list Z) :
  forall t, exists t', timer_run (Some report) ports t = Done t'.
Proof.
  induction ports as [|p ports IH]; intros t; cbn [timer_run]; [eauto|].
  destruct (btn_timer (Some report) p t) as [t1|] eqn:E; [apply IH|].
  now elim (btn_timer_assigned report p t).
Qed.

(** C8: after any run of ticks from power-on, a tick calls the consumer
    once, with the new gesture, when the debouncer confirms the sample and
    the gesture differs from the one the consumer was last called with
    (idle before any call), and does not call it otherwise: not on an
    unconfirmed tick, and not when the gesture equals the last reported
    one. *)
Theorem btn_timer_reports_changes (ports : list Z) (p : Z)
    (t : Timer_t (list INPUT_t)) :
  timer_run (Some record_gesture) ports (timer_init []) = Done t ->
  exists t',
    btn_timer (Some record_gesture) p t = Done t' /\
    world t' =
      world t ++
      match tick_gesture p t with
      | Some g => if INPUT_eqb g (last_reported (world t)) then [] else [g]
      | None => []
      end.
Proof.
  intros Hr.
  assert (Hl : last_input_reported t).
  { apply (timer_run_recorded ports (timer_init []) t); [reflexivity | exact Hr]. }
  destruct (btn_timer_recorded p t Hl) as (t' & E & Hw & _).
  exists t'. split; assumption.
Qed.

(** The up button held from power-on: the tick that confirms it a second
    time finds the gesture as reported and calls nobody. *)
Lemma btn_timer_reports_changes_witness :
  timer_run (Some record_gesture) (repeat 1 400) (timer_init []) =
    Done (mkTimer (mkDebounce 199 UpOnly)
            (mkInputState 0 0 false false INPUT_UP) INPUT_UP [INPUT_UP]) /\
  exists t',
    btn_timer (Some record_gesture) 1
      (mkTimer (mkDebounce 199 UpOnly)
         (mkInputState 0 0 false false INPUT_UP) INPUT_UP [INPUT_UP])
      = Done t' /\
    world t' = [INPUT_UP].
Proof.
  assert (Hr : timer_run (Some record_gesture) (repeat 1 400) (timer_init []) =
    Done (mkTimer (mkDebounce 199 UpOnly)
            (mkInputState 0 0 false false INPUT_UP) INPUT_UP [INPUT_UP])).
  { vm_compute. reflexivity. }
  split; [exact Hr|].
  exact (btn_timer_reports_changes (repeat 1 400) 1 _ Hr).
Defined.

(** * Further properties of the debouncer *)

Lemma BUTTON_CHANGE_false (a b : ButtonState_t) :
  BUTTON_CHANGE a b = false -> a = b.
Proof.
  destruct a as [[|] [|]], b as [[|] [|]]; cbn; intros H;
    first [reflexivity | discriminate H].
Qed.

Lemma debounce_final_cons b l d :
  debounce_final (b :: l) d = debounce_final l (snd (btn_debounce b d)).
Proof.
  unfold debounce_final. cbn [debounce_run].
  destruct (btn_debounce b d) as [r d1]. cbn [snd].
  destruct (debounce_run l d1) as [rs d2]. reflexivity.
Qed.

Lemma debounce_final_one b d :
  debounce_final [b] d = snd (btn_debounce b d).
Proof. now rewrite debounce_final_cons. Qed.

Lemma debounce_final_app l1 : forall l2 d,
  debounce_final (l1 ++ l2) d = debounce_final l2 (debounce_final l1 d).
Proof.
  induction l1 as [|b l1 IH]; intros l2 d; [reflexivity|].
  rewrite <- app_comm_cons, !debounce_final_cons, IH. reflexivity.
Qed.

(** One call from any value of the [uint8_t] counter. *)
Lemma btn_debounce_bounds (b : ButtonState_t) (d : Debounce_t) :
  0 <= count d < 256 ->
  0 <= count (snd (btn_debounce b d)) < DEBOUNCE_THRESHOLD /\
  last_state (snd (btn_debounce b d)) = b.
Proof.
  intros Hc. unfold btn_debounce.
  destruct (BUTTON_CHANGE (last_state d) b) eqn:E; cbn [count last_state].
  - change (DEBOUNCE_THRESHOLD <=? 0) with false. cbn [snd count last_state].
    unfold DEBOUNCE_THRESHOLD. split; [lia | reflexivity].
  - apply BUTTON_CHANGE_false in E.
    pose proof (Z.mod_pos_bound (count d + 1) 256 eq_refl) as Hm.
    fold (uint8 (count d + 1)) in Hm.
    destruct (Z.leb_spec DEBOUNCE_THRESHOLD (uint8 (count d + 1)));
      cbn [snd count last_state]; unfold DEBOUNCE_THRESHOLD in *;
      (split; [lia | exact E]).
Qed.

(** X1: whatever the samples, after each call the debouncer's counter is
    in [0, DEBOUNCE_THRESHOLD), so its increment never wraps the [uint8_t]
    around, and the sample it retains is the one of that call. *)
Theorem debounce_run_bounds (l : list ButtonState_t) (b : ButtonState_t)
    (d : Debounce_t) :
  0 <= count d < 256 ->
  0 <= count (debounce_final (l ++ [b]) d) < DEBOUNCE_THRESHOLD /\
  uint8 (count (debounce_final (l ++ [b]) d) + 1)
    = count (debounce_final (l ++ [b]) d) + 1 /\
  last_state (debounce_final (l ++ [b]) d) = b.
Proof.
  intros Hd.
  assert (Hl : 0 <= count (debounce_final l d) < 256).
  { revert d Hd. induction l as [|x l IH]; intros d Hd; [exact Hd|].
    rewrite debounce_final_cons. apply IH.
    destruct (btn_debounce_bounds x d Hd) as [H _].
    unfold DEBOUNCE_THRESHOLD in H. lia. }
  rewrite debounce_final_app, debounce_final_one.
  destruct (btn_debounce_bounds b (debounce_final l d) Hl) as [H1 H2].
  repeat split; try tauto.
  unfold uint8, DEBOUNCE_THRESHOLD in *. apply Z.mod_small. lia.
Qed.

Lemma debounce_run_bounds_witness :
  count (debounce_final ([UpOnly; UpOnly] ++ [Neither])
           (mkDebounce 255 UpOnly)) = 0 /\
  last_state (debounce_final ([UpOnly; UpOnly] ++ [Neither])
                (mkDebounce 255 UpOnly)) = Neither.
Proof.
  destruct (debounce_run_bounds [UpOnly; UpOnly] Neither
              (mkDebounce 255 UpOnly)) as (H1 & _ & H3).
  - cbn. lia.
  - split; [reflexivity | exact H3].
Defined.

(** From power-on, the samples seen so far end with as many copies of the
    retained sample as the counter says. *)
Lemma debounce_run_history (l : list ButtonState_t) :
  0 <= count (debounce_final l debouncer_init) < DEBOUNCE_THRESHOLD /\
  exists earlier,
    l = earlier ++
        repeat (last_state (debounce_final l debouncer_init))
               (Z.to_nat (count (debounce_final l debouncer_init))).
Proof.
  induction l as [|b l [IHc [earlier IHl]]] using rev_ind.
  - split; [unfold DEBOUNCE_THRESHOLD; cbn; lia | now exists []].
  - rewrite debounce_final_app, debounce_final_one.
    set (d := debounce_final l debouncer_init) in *.
    unfold btn_debounce.
    destruct (BUTTON_CHANGE (last_state d) b) eqn:E; cbn [count last_state].
    + change (DEBOUNCE_THRESHOLD <=? 0) with false. cbn [snd count last_state].
      split; [unfold DEBOUNCE_THRESHOLD; lia|].
      exists (l ++ [b]). cbn. now rewrite app_nil_r.
    + apply BUTTON_CHANGE_false in E.
      unfold uint8, DEBOUNCE_THRESHOLD in *.
      rewrite Z.mod_small by lia.
      destruct (Z.leb_spec 200 (count d + 1)); cbn [snd count last_state].
      * split; [lia|]. exists (l ++ [b]). cbn. now rewrite app_nil_r.
      * split; [lia|]. exists earlier.
        replace (Z.to_nat (count d + 1)) with (S (Z.to_nat (count d))) by lia.
        cbn [repeat]. rewrite E in *. rewrite repeat_cons, app_assoc.
        now rewrite <- IHl.
Qed.

(** X2: from power-on, a call returns true only when its sample ends a run
    of [DEBOUNCE_THRESHOLD] equal samples: a sample that has not been steady
    for that long is never confirmed. *)
Theorem btn_debounce_confirms_steady (l : list ButtonState_t)
    (b : ButtonState_t) :
  fst (btn_debounce b (debounce_final l debouncer_init)) = true ->
  exists earlier,
    l ++ [b] = earlier ++ repeat b (Z.to_nat DEBOUNCE_THRESHOLD).
Proof.
  destruct (debounce_run_history l) as [Hc [earlier Hl]].
  set (d := debounce_final l debouncer_init) in *.
  unfold btn_debounce.
  destruct (BUTTON_CHANGE (last_state d) b) eqn:E; cbn [count last_state].
  - change (DEBOUNCE_THRESHOLD <=? 0) with false. discriminate.
  - apply BUTTON_CHANGE_false in E.
    unfold uint8, DEBOUNCE_THRESHOLD in *.
    rewrite Z.mod_small by lia.
    destruct (Z.leb_spec 200 (count d + 1)); [|discriminate].
    intros _. exists earlier.
    replace (Z.to_nat 200) with (S (Z.to_nat (count d))) by lia.
    cbn [repeat]. rewrite repeat_cons, app_assoc.
    rewrite E in Hl. now rewrite <- Hl.
Qed.

Lemma btn_debounce_confirms_steady_witness :
  exists earlier,
    (Both :: repeat UpOnly 200) ++ [UpOnly] =
      earlier ++ repeat UpOnly (Z.to_nat DEBOUNCE_THRESHOLD).
Proof.
  apply (btn_debounce_confirms_steady (Both :: repeat UpOnly 200) UpOnly).
  vm_compute. reflexivity.
Defined.

(** X3: after a call that returns true, the next
    [DEBOUNCE_THRESHOLD - 1] calls return false whatever their samples
    are: two confirmations are at least [DEBOUNCE_THRESHOLD] ticks apart. *)
Theorem btn_debounce_confirm_spacing (d : Debounce_t) (b : ButtonState_t)
    (later : list ButtonState_t) (i : nat) :
  fst (btn_debounce b d) = true ->
  Z.of_nat i + 1 < DEBOUNCE_THRESHOLD ->
  (i < length later)%nat ->
  nth i (fst (debounce_run later (snd (btn_debounce b d)))) true = false.
Proof.
  intros Ht Hi Hlen.
  apply debounce_run_quiet; [| |exact Hlen].
  - revert Ht. unfold btn_debounce.
    destruct (DEBOUNCE_THRESHOLD <=? _); [cbn; lia | discriminate].
  - revert Ht. unfold btn_debounce.
    destruct (DEBOUNCE_THRESHOLD <=? _); [cbn [snd count]; lia | discriminate].
Qed.

Lemma btn_debounce_confirm_spacing_witness :
  fst (btn_debounce UpOnly (mkDebounce 199 UpOnly)) = true /\
  nth 198 (fst (debounce_run (repeat UpOnly 199)
                  (snd (btn_debounce UpOnly (mkDebounce 199 UpOnly)))))
      true = false.
Proof.
  split; [reflexivity|].
  apply (btn_debounce_confirm_spacing (mkDebounce 199 UpOnly) UpOnly
           (repeat UpOnly 199) 198).
  - reflexivity.
  - reflexivity.
  - vm_compute. lia.
Defined.

(** * Further properties of the gesture recognizer *)

Lemma tick_double_click_timer_inv (i : InputState_t) :
  double_click_inv i -> double_click_inv (tick_double_click_timer i).
Proof.
  destruct i as [h t u d st].
  unfold double_click_inv, tick_double_click_timer, set_double_click_timer,
    set_waiting_for_second_up, set_waiting_for_second_down,
    DOUBLE_CLICK_WINDOW, uint8.
  input_fields. intros (Ht & Hf & Hu & Hd).
  destruct (Z.ltb_spec 0 t); input_fields; [|tauto].
  rewrite Z.mod_small by lia.
  destruct (Z.eqb_spec (t - 1) 0); input_fields.
  - repeat split; intros; try lia; reflexivity.
  - repeat split; intros; try lia; auto.
Qed.

Lemma gesture_switch_inv (b : ButtonState_t) (i : InputState_t) :
  double_click_inv i -> double_click_inv (gesture_switch b i).
Proof.
  destruct i as [h t u d st].
  unfold double_click_inv at 1. input_fields. intros (Ht & Hf & Hu & Hd).
  destruct st, b as [[|] [|]], u, d;
    try (specialize (Hu eq_refl); discriminate Hu);
    try (specialize (Hd eq_refl); discriminate Hd);
    switch_step;
    try destruct (SAVE_HOLD_THRESHOLD <=? uint8 (h + 1));
    unfold double_click_inv, DOUBLE_CLICK_WINDOW in *; input_fields;
    repeat split; intros; try lia; try reflexivity; try discriminate; auto.
Qed.

(** X4: from the initial state, whatever the inputs, the double-click timer
    stays within [0, DOUBLE_CLICK_WINDOW], it runs only while one of the two
    waiting flags is set, and a double-click state has its own waiting flag
    cleared. *)
Theorem gesture_run_double_click_inv (btns : list ButtonState_t) :
  double_click_inv (gesture_final btns input_init).
Proof.
  assert (H : forall l i, double_click_inv i ->
                          double_click_inv (gesture_final l i)).
  { induction l as [|b l IH]; intros i Hi; [exact Hi|].
    rewrite gesture_final_cons. apply IH.
    unfold btn_gesture. cbn [snd].
    now apply gesture_switch_inv, tick_double_click_timer_inv. }
  apply H. unfold double_click_inv, DOUBLE_CLICK_WINDOW. cbn.
  repeat split; intros; try lia; try reflexivity; discriminate.
Qed.

(** X5: what [btn_gesture] returns agrees with the buttons of that call,
    from any state: with both buttons released it returns idle; it returns
    up only with the up button alone pressed, down only with the down
    button alone pressed, and save only with both pressed. *)
Theorem btn_gesture_follows_buttons (b : ButtonState_t) (i : InputState_t) :
  (b = Neither -> fst (btn_gesture b i) = INPUT_IDLE) /\
  (fst (btn_gesture b i) = INPUT_UP -> b = UpOnly) /\
  (fst (btn_gesture b i) = INPUT_DOWN -> b = DownOnly) /\
  (fst (btn_gesture b i) = INPUT_SAVE -> b = Both).
Proof.
  unfold btn_gesture. cbn [fst].
  destruct (tick_double_click_timer i) as [h t u d st].
  destruct st, b as [[|] [|]], u, d; switch_step;
    try destruct (SAVE_HOLD_THRESHOLD <=? uint8 (h + 1)); input_fields;
    repeat split; intros H; first [reflexivity | discriminate H].
Qed.

Lemma btn_gesture_follows_buttons_witness :
  fst (btn_gesture Neither (mkInputState 7 3 true false INPUT_UP))
    = INPUT_IDLE.
Proof.
  now apply (btn_gesture_follows_buttons Neither
               (mkInputState 7 3 true false INPUT_UP)).
Defined.

(** X6: the save and double-click states are entered from idle only, and
    left for idle only. *)
Theorem btn_gesture_special_states (b : ButtonState_t) (i : InputState_t) :
  (fst (btn_gesture b i) = INPUT_SAVE ->
   state i = INPUT_IDLE \/ state i = INPUT_SAVE) /\
  (fst (btn_gesture b i) = INPUT_DOUBLE_UP ->
   state i = INPUT_IDLE \/ state i = INPUT_DOUBLE_UP) /\
  (fst (btn_gesture b i) = INPUT_DOUBLE_DOWN ->
   state i = INPUT_IDLE \/ state i = INPUT_DOUBLE_DOWN) /\
  (state i = INPUT_SAVE \/ state i = INPUT_DOUBLE_UP \/
   state i = INPUT_DOUBLE_DOWN ->
   fst (btn_gesture b i) = state i \/ fst (btn_gesture b i) = INPUT_IDLE).
Proof.
  destruct (tick_double_click_timer_keeps i) as [_ Ks].
  unfold btn_gesture. cbn [fst]. rewrite <- Ks.
  destruct (tick_double_click_timer i) as [h t u d st].
  destruct st, b as [[|] [|]], u, d; switch_step;
    try destruct (SAVE_HOLD_THRESHOLD <=? uint8 (h + 1)); input_fields;
    repeat split; intros H; auto;
    first [discriminate H | destruct H as [H | [H | H]]; discriminate H].
Qed.

Lemma btn_gesture_special_states_witness :
  fst (btn_gesture UpOnly (mkInputState 0 0 false false INPUT_SAVE))
    = state (mkInputState 0 0 false false INPUT_SAVE) \/
  fst (btn_gesture UpOnly (mkInputState 0 0 false false INPUT_SAVE))
    = INPUT_IDLE.
Proof.
  apply (btn_gesture_special_states UpOnly
           (mkInputState 0 0 false false INPUT_SAVE)).
  left. reflexivity.
Defined.

(** ** The down click *)

Lemma btn_gesture_first_down (h t : Z) :
  exists t',
    btn_gesture DownOnly (mkInputState h t false false INPUT_IDLE) =
      (INPUT_DOWN, mkInputState h t' false false INPUT_DOWN).
Proof.
  gesture_step.
  destruct (0 <? t); input_fields; [|eauto].
  destruct (uint8 (t - 1) =? 0); input_fields; eauto.
Qed.

Lemma btn_gesture_release_down (h t : Z) (d : bool) :
  btn_gesture Neither (mkInputState h t false d INPUT_DOWN) =
    (INPUT_IDLE, mkInputState h DOUBLE_CLICK_WINDOW false true INPUT_IDLE).
Proof.
  gesture_step.
  destruct (0 <? t); input_fields; [|reflexivity].
  destruct (uint8 (t - 1) =? 0); reflexivity.
Qed.

Lemma gesture_run_click_down (i : InputState_t) :
  state i = INPUT_IDLE ->
  waiting_for_second_up i = false ->
  waiting_for_second_down i = false ->
  gesture_outputs [DownOnly; Neither] i = [INPUT_DOWN; INPUT_IDLE] /\
  gesture_final [DownOnly; Neither] i =
    mkInputState (save_hold i) DOUBLE_CLICK_WINDOW false true INPUT_IDLE.
Proof.
  destruct i as [h t u d st]; input_fields. intros -> -> ->.
  destruct (btn_gesture_first_down h t) as [t' E].
  rewrite !gesture_outputs_cons, !gesture_final_cons, E; cbn [fst snd].
  rewrite btn_gesture_release_down. split; reflexivity.
Qed.

(** A press from idle, by the timer and the flags it finds. *)
Lemma btn_gesture_idle_press (h t : Z) (u d : bool) :
  0 <= t <= 255 ->
  fst (btn_gesture UpOnly (mkInputState h t u d INPUT_IDLE)) =
    (if u && negb (t =? 1) then INPUT_DOUBLE_UP else INPUT_UP) /\
  fst (btn_gesture DownOnly (mkInputState h t u d INPUT_IDLE)) =
    (if d && negb (t =? 1) then INPUT_DOUBLE_DOWN else INPUT_DOWN).
Proof.
  intros Ht. gesture_step. unfold uint8.
  destruct (Z.ltb_spec 0 t); input_fields.
  - rewrite Z.mod_small by lia.
    destruct (Z.eqb_spec (t - 1) 0), (Z.eqb_spec t 1); try lia;
      input_fields; destruct u, d; split; reflexivity.
  - destruct (Z.eqb_spec t 1); [lia|].
    destruct u, d; split; reflexivity.
Qed.

(** X7: the down button behaves as the up button does.  From idle with no
    waiting flag set, a down press, its release and a second down press
    n + 1 calls after the release (buttons released in between) return
    down, idle, ..., and on the second press the double-click down when
    n + 1 < DOUBLE_CLICK_WINDOW, and down again otherwise. *)
Theorem btn_gesture_double_click_down (i : InputState_t) (n : nat) :
  state i = INPUT_IDLE ->
  waiting_for_second_up i = false ->
  waiting_for_second_down i = false ->
  gesture_outputs ([DownOnly; Neither] ++ repeat Neither n ++ [DownOnly]) i =
    [INPUT_DOWN; INPUT_IDLE] ++ repeat INPUT_IDLE n ++
    [if Z.of_nat n + 1 <? DOUBLE_CLICK_WINDOW
     then INPUT_DOUBLE_DOWN else INPUT_DOWN].
Proof.
  intros Hs Hu Hd.
  destruct (gesture_run_click_down i Hs Hu Hd) as [C1 C2].
  rewrite gesture_outputs_app, C1, C2. f_equal.
  destruct (gesture_run_idle_waiting n (save_hold i) DOUBLE_CLICK_WINDOW
              false true) as [W1 W2]; [unfold DOUBLE_CLICK_WINDOW; lia|].
  rewrite gesture_outputs_app, W1, W2. f_equal.
  rewrite gesture_outputs_cons. cbn [gesture_outputs gesture_run fst].
  unfold DOUBLE_CLICK_WINDOW.
  destruct (btn_gesture_idle_press (save_hold i)
              (Z.max 0 (10 - Z.of_nat n)) (false && (Z.of_nat n <? 10))
              (true && (Z.of_nat n <? 10))) as [_ E]; [lia|].
  rewrite E. f_equal. cbn [andb].
  destruct (Z.ltb_spec (Z.of_nat n) 10), (Z.ltb_spec (Z.of_nat n + 1) 10),
    (Z.eqb_spec (Z.max 0 (10 - Z.of_nat n)) 1); try lia; reflexivity.
Qed.

Lemma btn_gesture_double_click_down_witness :
  gesture_outputs ([DownOnly; Neither] ++ repeat Neither 8 ++ [DownOnly])
    input_init =
    [INPUT_DOWN; INPUT_IDLE] ++ repeat INPUT_IDLE 8 ++ [INPUT_DOUBLE_DOWN] /\
  gesture_outputs ([DownOnly; Neither] ++ repeat Neither 9 ++ [DownOnly])
    input_init =
    [INPUT_DOWN; INPUT_IDLE] ++ repeat INPUT_IDLE 9 ++ [INPUT_DOWN].
Proof.
  split.
  - apply (btn_gesture_double_click_down input_init 8); reflexivity.
  - apply (btn_gesture_double_click_down input_init 9); reflexivity.
Defined.

(** X8: the double-click-down state is as sticky as the double-click-up
    state: every call with a button pressed leaves it, and the call with
    both buttons released, and no other, takes it to idle. *)
Theorem btn_gesture_double_down_sticky (i : InputState_t)
    (b : ButtonState_t) :
  state i = INPUT_DOUBLE_DOWN ->
  (b <> Neither -> fst (btn_gesture b i) = INPUT_DOUBLE_DOWN) /\
  (b = Neither -> fst (btn_gesture b i) = INPUT_IDLE) /\
  (fst (btn_gesture b i) = INPUT_IDLE -> b = Neither).
Proof.
  intros Hs. destruct (tick_double_click_timer_keeps i) as [_ Ks].
  unfold btn_gesture, gesture_switch. rewrite Ks, Hs.
  destruct b as [[|] [|]]; cbn; repeat split; intros H;
    first [reflexivity | discriminate H | now elim H].
Qed.

Lemma btn_gesture_double_down_sticky_witness :
  fst (btn_gesture UpOnly
         (mkInputState 0 0 false false INPUT_DOUBLE_DOWN))
    = INPUT_DOUBLE_DOWN.
Proof.
  apply (btn_gesture_double_down_sticky
           (mkInputState 0 0 false false INPUT_DOUBLE_DOWN) UpOnly).
  - reflexivity.
  - discriminate.
Defined.

(** X9: a double click needs the same button twice.  From idle with no
    waiting flag set, a click of one button followed, any number of calls
    after its release, by a press of the other button returns a first press
    of that other button. *)
Theorem btn_gesture_other_button (i : InputState_t) (n : nat) :
  state i = INPUT_IDLE ->
  waiting_for_second_up i = false ->
  waiting_for_second_down i = false ->
  gesture_outputs ([UpOnly; Neither] ++ repeat Neither n ++ [DownOnly]) i =
    [INPUT_UP; INPUT_IDLE] ++ repeat INPUT_IDLE n ++ [INPUT_DOWN] /\
  gesture_outputs ([DownOnly; Neither] ++ repeat Neither n ++ [UpOnly]) i =
    [INPUT_DOWN; INPUT_IDLE] ++ repeat INPUT_IDLE n ++ [INPUT_UP].
Proof.
  intros Hs Hu Hd.
  destruct (gesture_run_click_up i Hs Hu Hd) as [U1 U2].
  destruct (gesture_run_click_down i Hs Hu Hd) as [D1 D2].
  destruct (gesture_run_idle_waiting n (save_hold i) DOUBLE_CLICK_WINDOW
              true false) as [V1 V2]; [unfold DOUBLE_CLICK_WINDOW; lia|].
  destruct (gesture_run_idle_waiting n (save_hold i) DOUBLE_CLICK_WINDOW
              false true) as [W1 W2]; [unfold DOUBLE_CLICK_WINDOW; lia|].
  split.
  - rewrite gesture_outputs_app, U1, U2. f_equal.
    rewrite gesture_outputs_app, V1, V2. f_equal.
    rewrite gesture_outputs_cons. cbn [gesture_outputs gesture_run fst].
    unfold DOUBLE_CLICK_WINDOW.
    destruct (btn_gesture_idle_press (save_hold i)
                (Z.max 0 (10 - Z.of_nat n)) (true && (Z.of_nat n <? 10))
                (false && (Z.of_nat n <? 10))) as [_ E]; [lia|].
    rewrite E. reflexivity.
  - rewrite gesture_outputs_app, D1, D2. f_equal.
    rewrite gesture_outputs_app, W1, W2. f_equal.
    rewrite gesture_outputs_cons. cbn [gesture_outputs gesture_run fst].
    unfold DOUBLE_CLICK_WINDOW.
    destruct (btn_gesture_idle_press (save_hold i)
                (Z.max 0 (10 - Z.of_nat n)) (false && (Z.of_nat n <? 10))
                (true && (Z.of_nat n <? 10))) as [E _]; [lia|].
    rewrite E. reflexivity.
Qed.

Lemma btn_gesture_other_button_witness :
  gesture_outputs ([UpOnly; Neither] ++ repeat Neither 2 ++ [DownOnly])
    input_init =
    [INPUT_UP; INPUT_IDLE] ++ repeat INPUT_IDLE 2 ++ [INPUT_DOWN].
Proof.
  apply (btn_gesture_other_button input_init 2); reflexivity.
Defined.

(** X10: in idle with the buttons released, a running double-click timer
    runs out within as many calls as it shows, and then the timer is 0,
    both waiting flags are cleared, and the hold counter is as it was. *)
Theorem gesture_run_timer_expires (i : InputState_t) (n : nat) :
  state i = INPUT_IDLE ->
  0 < double_click_timer i <= 255 ->
  double_click_timer i <= Z.of_nat n ->
  gesture_final (repeat Neither n) i =
    mkInputState (save_hold i) 0 false false INPUT_IDLE.
Proof.
  destruct i as [h t u d st]; input_fields. intros -> Ht Hn.
  destruct (gesture_run_idle_waiting n h t u d Ht) as [_ E].
  rewrite E.
  replace (Z.of_nat n <? t) with false by (symmetry; apply Z.ltb_ge; lia).
  rewrite !andb_false_r. f_equal. lia.
Qed.

Lemma gesture_run_timer_expires_witness :
  gesture_final (repeat Neither 10)
    (mkInputState 5 10 true true INPUT_IDLE) =
    mkInputState 5 0 false false INPUT_IDLE.
Proof.
  apply (gesture_run_timer_expires
           (mkInputState 5 10 true true INPUT_IDLE) 10); cbn; lia || reflexivity.
Defined.

(** ** The interrupted hold *)

Lemma gesture_run_idle_released (n : nat) : forall i,
  state i = INPUT_IDLE ->
  gesture_outputs (repeat Neither n) i = repeat INPUT_IDLE n /\
  state (gesture_final (repeat Neither n) i) = INPUT_IDLE /\
  save_hold (gesture_final (repeat Neither n) i) = save_hold i.
Proof.
  induction n as [|n IH]; intros i Hs; [cbn; auto|].
  cbn [repeat]. rewrite gesture_outputs_cons, gesture_final_cons.
  destruct (tick_double_click_timer_keeps i) as [Kh Ks].
  assert (E : state (snd (btn_gesture Neither i)) = INPUT_IDLE /\
              save_hold (snd (btn_gesture Neither i)) = save_hold i).
  { unfold btn_gesture, gesture_switch. rewrite Ks, Hs. cbn. auto. }
  destruct E as [E1 E2].
  destruct (IH _ E1) as (I1 & I2 & I3).
  rewrite btn_gesture_returns_state, E1, I1, I2, I3, E2. auto.
Qed.

(** X11: the hold counter survives a release.  From idle, a hold of both
    buttons that is given up before the save gesture and taken up again
    after any number of calls with the buttons released goes on counting
    where it stopped: the save gesture comes when the calls with both
    buttons pressed, before and after the release together, have taken the
    counter to [SAVE_HOLD_THRESHOLD]. *)
Theorem btn_gesture_hold_resumes (i : InputState_t) (a k c : nat) :
  state i = INPUT_IDLE ->
  0 <= save_hold i ->
  save_hold i + Z.of_nat a + Z.of_nat c + 1 = SAVE_HOLD_THRESHOLD ->
  gesture_outputs
    (repeat Both a ++ repeat Neither k ++ repeat Both c ++ [Both]) i =
    repeat INPUT_IDLE a ++ repeat INPUT_IDLE k ++ repeat INPUT_IDLE c ++
    [INPUT_SAVE].
Proof.
  intros Hs H0 Hsum.
  destruct (gesture_run_holding a i Hs H0) as (A1 & A2 & A3); [lia|].
  rewrite gesture_outputs_app, A1. f_equal.
  set (i1 := gesture_final (repeat Both a) i) in *.
  destruct (gesture_run_idle_released k i1 A2) as (B1 & B2 & B3).
  rewrite gesture_outputs_app, B1. f_equal.
  set (i2 := gesture_final (repeat Neither k) i1) in *.
  destruct (gesture_run_holding c i2 B2) as (C1 & C2 & C3); [lia | lia |].
  rewrite gesture_outputs_app, C1. f_equal.
  set (i3 := gesture_final (repeat Both c) i2) in *.
  rewrite gesture_outputs_cons, btn_gesture_returns_state.
  pose proof (btn_gesture_idle_both i3 C2) as HB. cbv zeta in HB.
  assert (E : save_hold i3 + 1 = SAVE_HOLD_THRESHOLD) by lia.
  rewrite (proj2 (Z.eqb_eq _ _) E) in HB.
  destruct HB as [HB _]; [unfold SAVE_HOLD_THRESHOLD in *; lia|].
  now rewrite HB.
Qed.

Lemma btn_gesture_hold_resumes_witness :
  gesture_outputs
    (repeat Both 59 ++ repeat Neither 100 ++ repeat Both 0 ++ [Both])
    input_init =
    repeat INPUT_IDLE 59 ++ repeat INPUT_IDLE 100 ++ repeat INPUT_IDLE 0 ++
    [INPUT_SAVE].
Proof.
  apply (btn_gesture_hold_resumes input_init 59 100 0).
  - reflexivity.
  - cbn. lia.
  - reflexivity.
Defined.

(** * Further properties of the timer interrupt *)



Lemma timer_run_app {W : Type} (cb : option (INPUT_t -> W -> W))
    (l1 l2 : list Z) : forall t,
  timer_run cb (l1 ++ l2) t =
    match timer_run cb l1 t with
    | Done t1 => timer_run cb l2 t1
    | Fault => Fault
    end.
Proof.
  induction l1 as [|p l1 IH]; intros t; [reflexivity|].
  cbn [app timer_run]. destruct (btn_timer cb p t); [apply IH | reflexivity].
Qed.

(** An interrupt that returns has run the debouncer once, and on a
    confirmed sample the recognizer once, and then holds the gesture of
    that call as the last one. *)
Lemma btn_timer_done {W : Type} (cb : option (INPUT_t -> W -> W)) (p : Z)
    (t t' : Timer_t W) :
  btn_timer cb p t = Done t' ->
  let b := ButtonState_of_PORTB p in
  debouncer t' = snd (btn_debounce b (debouncer t)) /\
  (if fst (btn_debounce b (debouncer t))
   then input t' = snd (btn_gesture b (input t)) /\
        last_input t' = fst (btn_gesture b (input t))
   else input t' = input t /\ last_input t' = last_input t).
Proof.
  unfold btn_timer. cbv zeta.
  destruct (btn_debounce (ButtonState_of_PORTB p) (debouncer t)) as [r d].
  cbn [fst snd]. destruct r.
  - destruct (btn_gesture (ButtonState_of_PORTB p) (input t)) as [g i'].
    cbn [fst snd].
    destruct (INPUT_eqb g (last_input t)) eqn:E; cbn [negb].
    + apply INPUT_eqb_eq in E. intros H. injection H as <-. cbn. auto.
    + destruct cb; [|discriminate]. intros H. injection H as <-. cbn. auto.
  - intros H. injection H as <-. cbn. auto.
Qed.

Lemma last_cons {A : Type} (a d : A) (l : list A) :
  last (a :: l) d = last l a.
Proof.
  revert a d. induction l as [|x l IH]; intros a d; [reflexivity|].
  change (last (a :: x :: l) d) with (last (x :: l) d).
  now rewrite (IH x d), (IH x a).
Qed.

Lemma gesture_outputs_repeat_S b n i :
  gesture_outputs (repeat b (S n)) i =
    fst (btn_gesture b i) :: gesture_outputs (repeat b n) (snd (btn_gesture b i)).
Proof. apply gesture_outputs_cons. Qed.

(** A reading held while the debouncer already retains it. *)
Lemma timer_run_held {W : Type} (report : INPUT_t -> W -> W) (p : Z)
    (n : nat) : forall (t : Timer_t W) (c : Z),
  debouncer t = mkDebounce c (ButtonState_of_PORTB p) ->
  0 <= c < DEBOUNCE_THRESHOLD ->
  exists t',
    timer_run (Some report) (repeat p n) t = Done t' /\
    debouncer t' =
      mkDebounce ((c + Z.of_nat n) mod DEBOUNCE_THRESHOLD)
        (ButtonState_of_PORTB p) /\
    input t' =
      gesture_final
        (repeat (ButtonState_of_PORTB p)
           (Z.to_nat ((c + Z.of_nat n) / DEBOUNCE_THRESHOLD)))
        (input t) /\
    last_input t' =
      last (gesture_outputs
              (repeat (ButtonState_of_PORTB p)
                 (Z.to_nat ((c + Z.of_nat n) / DEBOUNCE_THRESHOLD)))
              (input t))
           (last_input t).
Proof.
  induction n as [|n IH]; intros t c Hd Hc.
  - exists t. unfold DEBOUNCE_THRESHOLD in *. cbn [repeat timer_run].
    rewrite Z.add_0_r, Z.mod_small, Z.div_small by lia.
    repeat split; assumption.
  - cbn [repeat timer_run].
    destruct (btn_timer (Some report) p t) as [t1|] eqn:E;
      [|now elim (btn_timer_assigned report p t)].
    destruct (btn_timer_done _ _ _ _ E) as [D1 D2]. cbv zeta in D2.
    rewrite Hd, (btn_debounce_steady _ c Hc) in D1, D2.
    unfold DEBOUNCE_THRESHOLD in *.
    destruct (Z.eqb_spec (c + 1) 200) as [Ec|Ec]; cbn [fst snd] in D1, D2.
    + destruct D2 as [D2 D3].
      destruct (IH t1 0 D1) as (t' & R & F1 & F2 & F3); [lia|].
      exists t'. split; [exact R|].
      replace (c + Z.of_nat (S n)) with (0 + Z.of_nat n + 1 * 200) by lia.
      rewrite Z.mod_add, Z.div_add by lia.
      assert (0 <= (0 + Z.of_nat n) / 200) by (apply Z.div_pos; lia).
      replace (Z.to_nat ((0 + Z.of_nat n) / 200 + 1))
        with (S (Z.to_nat ((0 + Z.of_nat n) / 200))) by lia.
      rewrite gesture_outputs_repeat_S, last_cons.
      cbn [repeat]. rewrite gesture_final_cons.
      rewrite <- D2, <- D3. repeat split; assumption.
    + destruct D2 as [D2 D3].
      destruct (IH t1 (c + 1) D1) as (t' & R & F1 & F2 & F3); [lia|].
      exists t'. split; [exact R|].
      replace (c + Z.of_nat (S n)) with (c + 1 + Z.of_nat n) by lia.
      rewrite <- D2, <- D3. repeat split; assumption.
Qed.

(** X13: a steady reading reaches the recognizer once every
    [DEBOUNCE_THRESHOLD] interrupts.  When the debouncer already retains
    the reading and its counter is at c, n further interrupts on that
    reading all return, leave the counter at (c + n) mod
    DEBOUNCE_THRESHOLD, and have called [btn_gesture] on it
    (c + n) / DEBOUNCE_THRESHOLD times. *)
Theorem timer_run_steady_reading {W : Type} (report : INPUT_t -> W -> W)
    (p : Z) (n : nat) (t : Timer_t W) (c : Z) :
  debouncer t = mkDebounce c (ButtonState_of_PORTB p) ->
  0 <= c < DEBOUNCE_THRESHOLD ->
  exists t',
    timer_run (Some report) (repeat p n) t = Done t' /\
    count (debouncer t') = (c + Z.of_nat n) mod DEBOUNCE_THRESHOLD /\
    input t' =
      gesture_final
        (repeat (ButtonState_of_PORTB p)
           (Z.to_nat ((c + Z.of_nat n) / DEBOUNCE_THRESHOLD)))
        (input t).
Proof.
  intros Hd Hc.
  destruct (timer_run_held report p n t c Hd Hc) as (t' & R & F1 & F2 & _).
  exists t'. rewrite F1. repeat split; assumption.
Qed.

(** Both buttons held from power-on: after 400 interrupts the recognizer
    has been called twice. *)
Lemma timer_run_steady_reading_witness :
  exists t',
    timer_run (Some record_gesture) (repeat 0 400) (timer_init []) =
      Done t' /\
    count (debouncer t') = (0 + Z.of_nat 400) mod DEBOUNCE_THRESHOLD /\
    input t' =
      gesture_final
        (repeat (ButtonState_of_PORTB 0)
           (Z.to_nat ((0 + Z.of_nat 400) / DEBOUNCE_THRESHOLD)))
        (input (timer_init (W := list INPUT_t) [])).
Proof.
  apply (timer_run_steady_reading record_gesture 0 400 (timer_init []) 0).
  - reflexivity.
  - unfold DEBOUNCE_THRESHOLD. lia.
Defined.

(** ** How often, and with what, the consumer is called *)

(** One call of the debouncer from a counter below the threshold: a
    confirmation has used up a full count. *)
Lemma btn_debounce_progress (b : ButtonState_t) (d : Debounce_t) :
  0 <= count d < DEBOUNCE_THRESHOLD ->
  0 <= count (snd (btn_debounce b d)) < DEBOUNCE_THRESHOLD /\
  (if fst (btn_debounce b d)
   then count (snd (btn_debounce b d)) = 0 /\
        count d + 1 = DEBOUNCE_THRESHOLD
   else count (snd (btn_debounce b d)) <= count d + 1).
Proof.
  unfold DEBOUNCE_THRESHOLD. intros Hc. unfold btn_debounce.
  destruct (BUTTON_CHANGE (last_state d) b); cbn [count last_state].
  - change (DEBOUNCE_THRESHOLD <=? 0) with false. cbn [fst snd count]. lia.
  - unfold uint8, DEBOUNCE_THRESHOLD. rewrite Z.mod_small by lia.
    destruct (Z.leb_spec 200 (count d + 1)); cbn [fst snd count]; lia.
Qed.

Lemma timer_run_budget (ports : list Z) :
  forall t t' : Timer_t (list INPUT_t),
    0 <= count (debouncer t) < DEBOUNCE_THRESHOLD ->
    timer_run (Some record_gesture) ports t = Done t' ->
    0 <= count (debouncer t') < DEBOUNCE_THRESHOLD /\
    DEBOUNCE_THRESHOLD * Z.of_nat (length (world t'))
      + count (debouncer t') <=
    DEBOUNCE_THRESHOLD * Z.of_nat (length (world t))
      + count (debouncer t) + Z.of_nat (length ports).
Proof.
  induction ports as [|p ports IH]; intros t t' Hc Hr; cbn [timer_run] in Hr.
  - injection Hr as <-. cbn [length]. lia.
  - destruct (btn_timer (Some record_gesture) p t) as [t1|] eqn:E;
      [|discriminate].
    destruct (btn_timer_done _ _ _ _ E) as [D1 _].
    destruct (btn_debounce_progress (ButtonState_of_PORTB p) (debouncer t) Hc)
      as [P1 P2].
    rewrite <- D1 in P1, P2.
    destruct (IH t1 t' P1 Hr) as [I1 I2]. split; [exact I1|].
    assert (Hw : DEBOUNCE_THRESHOLD * Z.of_nat (length (world t1))
                   + count (debouncer t1) <=
                 DEBOUNCE_THRESHOLD * Z.of_nat (length (world t))
                   + count (debouncer t) + 1).
    { revert E P2. unfold btn_timer.
      destruct (btn_debounce (ButtonState_of_PORTB p) (debouncer t))
        as [r d]. cbn [fst]. destruct r.
      - destruct (btn_gesture (ButtonState_of_PORTB p) (input t)) as [g i'].
        destruct (negb (INPUT_eqb g (last_input t)));
          intros E P2; injection E as <-; cbn [world debouncer] in *;
          unfold record_gesture; rewrite ?length_app; cbn [length];
          unfold DEBOUNCE_THRESHOLD in *; lia.
      - intros E P2; injection E as <-; cbn [world debouncer] in *.
        unfold DEBOUNCE_THRESHOLD in *. lia. }
    cbn [length]. lia.
Qed.

(** X14: the consumer is called at most once every [DEBOUNCE_THRESHOLD]
    interrupts: after any readings from power-on,
    [DEBOUNCE_THRESHOLD] times the number of calls made is at most the
    number of interrupts. *)
Theorem timer_run_call_rate (ports : list Z) (t : Timer_t (list INPUT_t)) :
  timer_run (Some record_gesture) ports (timer_init []) = Done t ->
  DEBOUNCE_THRESHOLD * Z.of_nat (length (world t))
    <= Z.of_nat (length ports).
Proof.
  intros Hr.
  destruct (timer_run_budget ports (timer_init []) t) as [H1 H2];
    [unfold DEBOUNCE_THRESHOLD; cbn; lia | exact Hr |].
  cbn [timer_init world debouncer debouncer_init count length] in H2.
  unfold DEBOUNCE_THRESHOLD in *. lia.
Qed.

Lemma timer_run_call_rate_witness :
  DEBOUNCE_THRESHOLD * Z.of_nat (length [INPUT_UP])
    <= Z.of_nat (length (repeat 1 400)).
Proof.
  apply (timer_run_call_rate (repeat 1 400)
           (mkTimer (mkDebounce 199 UpOnly)
              (mkInputState 0 0 false false INPUT_UP) INPUT_UP [INPUT_UP])).
  vm_compute. reflexivity.
Defined.

Lemma changes_only_snoc (l : list INPUT_t) : forall (prev g : INPUT_t),
  changes_only prev (l ++ [g]) =
    changes_only prev l && negb (INPUT_eqb g (last l prev)).
Proof.
  induction l as [|x l IH]; intros prev g.
  - cbn. now rewrite andb_true_r.
  - rewrite <- app_comm_cons. cbn [changes_only].
    rewrite IH, last_cons, andb_assoc. reflexivity.
Qed.

(** X15: the consumer never gets the same gesture twice in a row, and the
    first gesture it gets after power-on is not idle: in the calls made
    over any run of interrupts every gesture differs from the one before
    it, the first from idle. *)
Theorem timer_run_calls_change (ports : list Z)
    (t : Timer_t (list INPUT_t)) :
  timer_run (Some record_gesture) ports (timer_init []) = Done t ->
  changes_only INPUT_IDLE (world t) = true.
Proof.
  assert (H : forall l (t0 t1 : Timer_t (list INPUT_t)),
    last_input_reported t0 ->
    changes_only INPUT_IDLE (world t0) = true ->
    timer_run (Some record_gesture) l t0 = Done t1 ->
    changes_only INPUT_IDLE (world t1) = true).
  { induction l as [|p l IH]; intros t0 t1 Hl Hc Hr; cbn [timer_run] in Hr.
    - now injection Hr as <-.
    - destruct (btn_timer_recorded p t0 Hl) as (t' & E & Hw & Hl').
      rewrite E in Hr. apply (IH t' t1 Hl'); [|exact Hr].
      rewrite Hw. destruct (tick_gesture p t0) as [g|];
        [|now rewrite app_nil_r].
      destruct (INPUT_eqb g (last_reported (world t0))) eqn:Eg;
        [now rewrite app_nil_r|].
      rewrite changes_only_snoc, Hc.
      unfold last_reported in Eg. now rewrite Eg. }
  intros Hr. apply (H ports (timer_init []) t); [reflexivity .. | exact Hr].
Qed.

Lemma timer_run_calls_change_witness :
  changes_only INPUT_IDLE [INPUT_UP] = true.
Proof.
  apply (timer_run_calls_change (repeat 1 400)
           (mkTimer (mkDebounce 199 UpOnly)
              (mkInputState 0 0 false false INPUT_UP) INPUT_UP [INPUT_UP])).
  vm_compute. reflexivity.
Defined.

(** ** Letting go *)

Lemma btn_gesture_released (i : InputState_t) :
  fst (btn_gesture Neither i) = INPUT_IDLE.
Proof.
  destruct (tick_double_click_timer_keeps i) as [_ Ks].
  unfold btn_gesture, gesture_switch. rewrite Ks.
  destruct (state i); reflexivity.
Qed.

Lemma gesture_run_released (n : nat) (i : InputState_t) :
  gesture_outputs (repeat Neither (S n)) i = repeat INPUT_IDLE (S n) /\
  state (gesture_final (repeat Neither (S n)) i) = INPUT_IDLE.
Proof.
  cbn [repeat]. rewrite gesture_outputs_cons, gesture_final_cons.
  pose proof (btn_gesture_released i) as E.
  assert (E' : state (snd (btn_gesture Neither i)) = INPUT_IDLE)
    by now rewrite <- btn_gesture_returns_state.
  destruct (gesture_run_idle_released n _ E') as (I1 & I2 & _).
  now rewrite E, I1, I2.
Qed.

Lemma last_repeat_S {A : Type} (x d : A) (n : nat) :
  last (repeat x (S n)) d = x.
Proof.
  revert d. induction n as [|n IH]; intros d; [reflexivity|].
  change (repeat x (S (S n))) with (x :: repeat x (S n)).
  rewrite last_cons. apply IH.
Qed.

(** Both buttons released for more than [DEBOUNCE_THRESHOLD] interrupts,
    from any state of the statics. *)
Lemma timer_run_let_go {W : Type} (report : INPUT_t -> W -> W) (p : Z)
    (n : nat) (t : Timer_t W) :
  ButtonState_of_PORTB p = Neither ->
  0 <= count (debouncer t) < 256 ->
  DEBOUNCE_THRESHOLD < Z.of_nat n ->
  exists t',
    timer_run (Some report) (repeat p n) t = Done t' /\
    state (input t') = INPUT_IDLE /\
    last_input t' = INPUT_IDLE.
Proof.
  intros Hp Hc Hn. destruct n as [|n]; [unfold DEBOUNCE_THRESHOLD in Hn; lia|].
  cbn [repeat timer_run].
  destruct (btn_timer (Some report) p t) as [t1|] eqn:E;
    [|now elim (btn_timer_assigned report p t)].
  destruct (btn_timer_done _ _ _ _ E) as [D1 _].
  destruct (btn_debounce_bounds (ButtonState_of_PORTB p) (debouncer t) Hc)
    as [B1 B2].
  rewrite <- D1 in B1, B2.
  destruct (timer_run_held report p n t1 (count (debouncer t1)))
    as (t' & R & _ & F2 & F3); [|exact B1|].
  { destruct (debouncer t1) as [c s]. cbn [count last_state] in *.
    now rewrite B2. }
  exists t'. split; [exact R|].
  unfold DEBOUNCE_THRESHOLD in *.
  assert (Hq : 1 <= (count (debouncer t1) + Z.of_nat n) / 200).
  { apply Z.div_le_lower_bound; lia. }
  destruct (Z.to_nat ((count (debouncer t1) + Z.of_nat n) / 200))
    as [|q] eqn:Eq; [lia|].
  rewrite Hp in F2, F3.
  destruct (gesture_run_released q (input t1)) as [G1 G2].
  rewrite F2, F3, G1, G2, last_repeat_S. split; reflexivity.
Qed.

(** X16: letting go stops the gesture.  However the buttons have been
    used since power-on, once PORTB has read both lines high for more than
    [DEBOUNCE_THRESHOLD] interrupts the recognizer is in idle, and the last
    gesture the consumer was called with is idle, unless it was never
    called. *)
Theorem timer_run_release_reports_idle (ports : list Z) (p : Z) (n : nat)
    (t : Timer_t (list INPUT_t)) :
  ButtonState_of_PORTB p = Neither ->
  DEBOUNCE_THRESHOLD < Z.of_nat n ->
  timer_run (Some record_gesture) (ports ++ repeat p n) (timer_init [])
    = Done t ->
  state (input t) = INPUT_IDLE /\
  last_reported (world t) = INPUT_IDLE.
Proof.
  intros Hp Hn Hr. rewrite timer_run_app in Hr.
  destruct (timer_run (Some record_gesture) ports (timer_init []))
    as [t0|] eqn:E0; [|discriminate].
  destruct (timer_run_budget ports (timer_init []) t0) as [Hc _];
    [unfold DEBOUNCE_THRESHOLD; cbn; lia | exact E0 |].
  assert (Hl0 : last_input_reported t0).
  { apply (timer_run_recorded ports (timer_init []) t0);
      [reflexivity | exact E0]. }
  assert (Hl : last_input_reported t)
    by exact (timer_run_recorded _ t0 t Hl0 Hr).
  destruct (timer_run_let_go record_gesture p n t0 Hp) as (t' & R & S1 & S2);
    [unfold DEBOUNCE_THRESHOLD in Hc; lia | exact Hn |].
  rewrite R in Hr. injection Hr as <-.
  split; [exact S1|]. now rewrite <- Hl.
Qed.

(** An up click, then both lines high for 201 interrupts. *)
Lemma timer_run_release_reports_idle_witness :
  last_reported [INPUT_UP; INPUT_IDLE] = INPUT_IDLE.
Proof.
  apply (timer_run_release_reports_idle (repeat 1 201) 3 201
           (mkTimer (mkDebounce 0 Neither)
              (mkInputState 0 10 true false INPUT_IDLE) INPUT_IDLE
              [INPUT_UP; INPUT_IDLE])).
  - reflexivity.
  - reflexivity.
  - vm_compute. reflexivity.
Defined.

(** ** The unset callback over a run *)

(** One interrupt without the callback beside one with the recording
    callback, from statics that agree. *)
Lemma btn_timer_unset_beside (p : Z) (tn : Timer_t unit)
    (tr : Timer_t (list INPUT_t)) :
  debouncer tn = debouncer tr ->
  input tn = input tr ->
  last_input tn = last_input tr ->
  exists tr',
    btn_timer (Some record_gesture) p tr = Done tr' /\
    match btn_timer None p tn with
    | Done tn' =>
        debouncer tn' = debouncer tr' /\ input tn' = input tr' /\
        last_input tn' = last_input tr' /\ world tr' = world tr
    | Fault => exists g, world tr' = world tr ++ [g]
    end.
Proof.
  intros Hd Hi Hl. unfold btn_timer. rewrite Hd, Hi, Hl.
  destruct (btn_debounce (ButtonState_of_PORTB p) (debouncer tr)) as [r d].
  destruct r.
  - destruct (btn_gesture (ButtonState_of_PORTB p) (input tr)) as [g i'].
    destruct (negb (INPUT_eqb g (last_input tr))).
    + eexists. split; [reflexivity|]. exists g. reflexivity.
    + eexists. split; [reflexivity|]. cbn. auto.
  - eexists. split; [reflexivity|]. cbn. auto.
Qed.

Lemma timer_run_world_grows (ports : list Z) :
  forall t t' : Timer_t (list INPUT_t),
    timer_run (Some record_gesture) ports t = Done t' ->
    exists more, world t' = world t ++ more.
Proof.
  induction ports as [|p ports IH]; intros t t' Hr; cbn [timer_run] in Hr.
  - injection Hr as <-. exists []. now rewrite app_nil_r.
  - destruct (btn_timer (Some record_gesture) p t) as [t1|] eqn:E;
      [|discriminate].
    destruct (IH t1 t' Hr) as [more Hm].
    revert E. unfold btn_timer.
    destruct (btn_debounce (ButtonState_of_PORTB p) (debouncer t)) as [r d].
    destruct r.
    + destruct (btn_gesture (ButtonState_of_PORTB p) (input t)) as [g i'].
      destruct (negb (INPUT_eqb g (last_input t)));
        intros E; injection E as <-; cbn [world] in Hm.
      * exists ([g] ++ more). unfold record_gesture in Hm.
        now rewrite Hm, app_assoc.
      * now exists more.
    + intros E; injection E as <-. now exists more.
Qed.

Lemma timer_run_unset_beside (ports : list Z) :
  forall (tn : Timer_t unit) (tr : Timer_t (list INPUT_t)),
    debouncer tn = debouncer tr ->
    input tn = input tr ->
    last_input tn = last_input tr ->
    world tr = [] ->
    exists tr',
      timer_run (Some record_gesture) ports tr = Done tr' /\
      match timer_run None ports tn with
      | Done _ => world tr' = []
      | Fault => world tr' <> []
      end.
Proof.
  induction ports as [|p ports IH]; intros tn tr Hd Hi Hl Hw.
  - exists tr. split; [reflexivity | exact Hw].
  - cbn [timer_run].
    destruct (btn_timer_unset_beside p tn tr Hd Hi Hl) as (tr1 & E & M).
    rewrite E.
    destruct (btn_timer None p tn) as [tn1|].
    + destruct M as (Hd1 & Hi1 & Hl1 & Hw1).
      apply (IH tn1 tr1 Hd1 Hi1 Hl1). now rewrite Hw1.
    + destruct M as [g Hg].
      destruct (timer_run_assigned record_gesture ports tr1) as [tr' R].
      exists tr'. split; [exact R|].
      destruct (timer_run_world_grows ports tr1 tr' R) as [more Hm].
      rewrite Hm, Hg, Hw. discriminate.
Qed.

(** X17: an unset callback does no harm until there is a gesture to
    report.  From power-on, the interrupts over a list of readings run into
    the call through the null pointer exactly when, over the same readings,
    an assigned callback would have been called at least once. *)
Theorem timer_run_unset_callback (ports : list Z) :
  exists t,
    timer_run (Some record_gesture) ports (timer_init []) = Done t /\
    (timer_run None ports (timer_init tt) = Fault <-> world t <> []).
Proof.
  destruct (timer_run_unset_beside ports (timer_init tt) (timer_init []))
    as (t & R & M); try reflexivity.
  exists t. split; [exact R|].
  destruct (timer_run None ports (timer_init tt)) as [tn|].
  - split; [discriminate | intros H; now elim H].
  - split; [intros _; exact M | reflexivity].
Qed.

(** Neither button touched for a thousand interrupts: nothing to report,
    and the interrupts return without the callback. *)
Lemma timer_run_unset_callback_witness :
  timer_run None (repeat 3 1000) (timer_init tt) <> Fault.
Proof.
  destruct (timer_run_unset_callback (repeat 3 1000)) as (t & R & H).
  intros F. apply H in F. apply F.
  assert (E : timer_run (Some record_gesture) (repeat 3 1000) (timer_init [])
              = Done (mkTimer (mkDebounce 199 Neither) input_init
                        INPUT_IDLE [])) by (vm_compute; reflexivity).
  rewrite E in R. now injection R as <-.
Defined.
